(** * i2c-monitor: the sensor drivers devices/ccs811.py and devices/max30102.py

    A shallow embedding of the two driver classes.  Python integers are [Z].
    Python floats are modelled by their value in [Q]: the finite floats are
    the rationals [m * 2^e] with [|m| < 2^53] and [-1074 <= e <= 971], and an
    arithmetic operation returns the float nearest to the exact result, ties
    going to the even significand.  The conversions of max30102.py divide an
    integer below 2^21 by 2^20 and multiply by 100 or 200, which floats do
    without rounding, so they are written with the exact operations of [Q];
    the arithmetic of [writeEnvironmentData], whose arguments are arbitrary
    numbers, is written with the rounded operations.  The bus client of pyi2c
    is a small state monad that records every transaction, pause and log line
    in order; exceptions are outcomes of a run. *)

From Stdlib Require Import ZArith QArith Qround Qpower Qabs List String Bool Lia Lqa.
Import ListNotations.

Local Open Scope Z_scope.

(** ** The transactional bus client and the monad of driver code

    Modelled from the spec: the [I2CDevice] class is imported from pyi2c, which
    is not part of the repository.  Following the external interface of the
    specification, [write], [writeread] and [read] are single transactions and
    each leaves a status code behind, 0 for success. *)

Inductive Level : Type := INFO | WARNING.

(** What a driver does to the outside world, in program order. *)
Inductive Event : Type :=
| Write (data : list Z)              (* _i2cdevice.write(data) *)
| WriteRead (addr : Z) (len : Z)     (* _i2cdevice.writeread(addr, len) *)
| Read (len : Z)                     (* _i2cdevice.read(len) *)
| Sleep                              (* time.sleep(.1) *)
| Log (lvl : Level) (msg : string).  (* logging.info / logging.warning *)

Inductive Exn : Type :=
| IndexError
| AttributeError (attr : string).

Inductive Outcome (A : Type) : Type :=
| Ret (a : A)
| Raise (e : Exn).
Arguments Ret {A} a.
Arguments Raise {A} e.

(** The answer of the transport to one transaction: the bytes read (empty for
    a write) and the status code the device object holds afterwards. *)
Record Reply : Type := mkReply { reply_data : list Z; reply_code : Z }.

(** The state of the [I2CDevice] object: the status code of the last
    transaction and the number of transactions done so far. *)
Record Bus : Type := mkBus { status_code : Z; txn : nat }.

Record Run (A : Type) : Type :=
  mkRun { outcome : Outcome A; final : Bus; emitted : list Event }.
Arguments mkRun {A} _ _ _.
Arguments outcome {A} _.
Arguments final {A} _.
Arguments emitted {A} _.

Definition M (A : Type) : Type := Bus -> Run A.

Definition ret {A} (a : A) : M A := fun s => mkRun (Ret a) s [].

Definition raise {A} (e : Exn) : M A := fun s => mkRun (Raise e) s [].

(** The events of an earlier action put in front of those of a run. *)
Definition prepend {A} (evs : list Event) (r : Run A) : Run A :=
  mkRun (outcome r) (final r) (evs ++ emitted r).

Definition bind {A B} (m : M A) (k : A -> M B) : M B :=
  fun s =>
    match m s with
    | mkRun (Ret a) s1 e1 => prepend e1 (k a s1)
    | mkRun (Raise x) s1 e1 => mkRun (Raise x) s1 e1
    end.

Declare Scope drv_scope.
Delimit Scope drv_scope with drv.
Notation "x <- m ;; k" := (bind m (fun x => k))
  (at level 61, m at next level, right associativity) : drv_scope.
Notation "m ;; k" := (bind m (fun _ => k))
  (at level 61, right associativity) : drv_scope.
Local Open Scope drv_scope.

Definition emit (e : Event) : M unit := fun s => mkRun (Ret tt) s [e].

Definition sleep : M unit := emit Sleep.
Definition logging_info (msg : string) : M unit := emit (Log INFO msg).
Definition logging_warning (msg : string) : M unit := emit (Log WARNING msg).

(** [l[i]] for a constant index [i]: IndexError past the end. *)
Definition item (l : list Z) (i : nat) : M Z :=
  match nth_error l i with
  | Some b => ret b
  | None => raise IndexError
  end.

(** ** Python numbers *)

(** [x < y] on Python numbers. *)
Definition Qltb (x y : Q) : bool := negb (Qle_bool y x).

(** The finite values of a Python float (IEEE 754 binary64): a significand
    of at most 53 bits scaled by a power of two between 2^-1074 and 2^971.
    Every Python integer below 2^53 in magnitude is one of them. *)
Definition double (x : Q) : Prop :=
  exists m e : Z,
    Z.abs m < 2 ^ 53 /\ -1074 <= e <= 971 /\ (x == inject_Z m * 2 ^ e)%Q.

(** The integer nearest to [x], the even one of the two when [x] lies half
    way. *)
Definition round_half_even (x : Q) : Z :=
  let f := Qfloor x in
  match (x - inject_Z f ?= 1 # 2)%Q with
  | Lt => f
  | Eq => if Z.even f then f else f + 1
  | Gt => f + 1
  end.

(** The integer [b] with [2^b <= |x| < 2^(b+1)], for [x] other than 0. *)
Definition ilog2 (x : Q) : Z :=
  let l := Z.log2 (Z.abs (Qnum x)) - Z.log2 (Z.pos (Qden x)) in
  if Qle_bool (2 ^ l) (Qabs x) then l else l - 1.

(** The exponent of the unit in the last place of the floats around [x]:
    53 significant bits, and 2^-1074 throughout the subnormal range. *)
Definition ulp_exponent (x : Q) : Z := Z.max (ilog2 x) (-1022) - 52.

(** The float nearest to the real number [x], ties to even.  A result beyond
    the largest float, which Python gives as [inf], is not modelled: the
    statements about rounded arithmetic bound their arguments. *)
Definition round_double (x : Q) : Q :=
  (inject_Z (round_half_even (x / 2 ^ ulp_exponent x)) * 2 ^ ulp_exponent x)%Q.

(** [x + y], [x * y] and [x / y] on floats: the exact result, rounded. *)
Definition py_add (x y : Q) : Q := round_double (x + y).
Definition py_mul (x y : Q) : Q := round_double (x * y).
Definition py_div (x y : Q) : Q := round_double (x / y).

(** [x % y] on floats, for a positive [y]: the C function [fmod] is exact,
    and the remainder of a negative [x] is brought to the sign of [y] by one
    rounded addition of [y]; in both cases the result is the rounding of
    [x - y * floor (x / y)]. *)
Definition py_mod (x y : Q) : Q :=
  round_double (x - y * inject_Z (Qfloor (x / y))).

(** [int(x)]: truncation towards zero. *)
Definition py_int (x : Q) : Z := Z.quot (Qnum x) (Z.pos (Qden x)).

(** Modelled from the spec: [getBit] is imported from pyi2c, which is not part
    of the repository; the specification reads [getBit(status, n)] as bit [n]
    of the status byte, 1 when set and 0 when clear. *)
Definition getBit (v : Z) (n : Z) : Z := if Z.testbit v n then 1 else 0.

Section Transport.

(** [wire n] is what the transport answers to the [n]-th transaction on the
    device; the drivers never see anything else of the bus. *)
Variable wire : nat -> Reply.

Definition transact (e : Event) : M (list Z) :=
  fun s =>
    let r := wire (txn s) in
    mkRun (Ret (reply_data r)) (mkBus (reply_code r) (S (txn s))) [e].

(** [write(data)].  The specification has [write] take bytes; what the
    transport does with a list that holds a number outside [0, 255] is not
    modelled: the lists written below are command sequences of a device, or
    are shown to hold bytes. *)
Definition i2c_write (data : list Z) : M unit :=
  transact (Write data) ;; ret tt.

Definition i2c_writeread (addr len : Z) : M (list Z) :=
  transact (WriteRead addr len).

Definition i2c_read (len : Z) : M (list Z) :=
  transact (Read len).

Definition i2c_status_code : M Z :=
  fun s => mkRun (Ret (status_code s)) s [].

End Transport.

(** ** devices/ccs811.py *)

Module CCS811.

Definition _APP_START_ADDR : Z := 0xf4.
Definition _MEAS_MODE_ADDR : Z := 0x01.
Definition _MEAS_MODE_CMD : Z := 0x10.
Definition _RESULT_ADDR : Z := 0x02.
Definition _ENV_DATA : Z := 0x05.
Definition _SW_RESET : Z := 0xff.

(** The list [write_data] that [writeEnvironmentData] builds. *)
Definition write_data (humidity temperature : Q) : list Z :=
  [ _ENV_DATA;
    py_int (py_div (py_mul humidity (2^9)) (2^8));
    py_int (py_mod (py_mul humidity (2^9)) (2^8));
    py_int (py_div (py_mul (py_add temperature 25) (2^9)) (2^8));
    py_int (py_mod (py_mul (py_add temperature 25) (2^9)) (2^8)) ].

Section Driver.

Variable wire : nat -> Reply.

Definition initialize : M unit :=
  i2c_write wire [_APP_START_ADDR] ;;
  sleep ;;
  logging_info "CCS811 initialized." ;;
  i2c_write wire [_MEAS_MODE_ADDR; _MEAS_MODE_CMD] ;;
  sleep ;;
  logging_info "CCS811 set to measurement mode.".

Definition softReset : M unit :=
  let data := [_SW_RESET; 0x11; 0xE5; 0x72; 0x8A] in
  i2c_write wire data ;;
  sleep ;;
  logging_info "CCS811 did soft reset and return to boot mode.".

Definition writeEnvironmentData (humidity temperature : Q) : M unit :=
  if Qltb 0 humidity && Qltb (-25) temperature then
    i2c_write wire (write_data humidity temperature)
  else ret tt.

(** The inner [if/elif] chain of [interpretStatus]: at most one line. *)
Definition report_error_id (error_id : Z) : M unit :=
  if negb (Z.land error_id (2^0) =? 0) then
    logging_warning " -- WRITE_REG_INVALID."
  else if negb (Z.land error_id (2^1) =? 0) then
    logging_warning " -- READ_REG_INVALID."
  else if negb (Z.land error_id (2^2) =? 0) then
    logging_warning " -- MEASMODE_INVALID."
  else if negb (Z.land error_id (2^3) =? 0) then
    logging_warning " -- MAX_RESISTANCE. The sensor resistance measurement has reached or exceeded the maximum range."
  else if negb (Z.land error_id (2^4) =? 0) then
    logging_warning " -- HEATER_FAULT. The Heater current in the CCS811 is not in range"
  else if negb (Z.land error_id (2^5) =? 0) then
    logging_warning " -- HEATER_SUPPLY. The Heater voltage is not being applied correctly"
  else ret tt.

Definition interpretStatus (status error_id : Z) : M bool :=
  if negb (Z.land status (2^0) =? 0) then
    logging_warning "CCS811 has error" ;;
    report_error_id error_id ;;
    softReset ;;
    initialize ;;
    ret false
  else if Z.land status (2^3) =? 0 then
    logging_info "CCS811 has no new data" ;; ret false
  else if Z.land status (2^4) =? 0 then
    logging_info "CCS811 did not load valid application firmware" ;; ret false
  else if Z.land status (2^7) =? 0 then
    logging_info "CCS811 is not in application mode" ;; ret false
  else ret true.

(** [getECO2ETVOC] with the method it reaches through [self] left open. *)
Definition getECO2ETVOC_body (self_interpretStatus : Z -> Z -> M bool)
  : M (Z * Z) :=
  read_data <- i2c_writeread wire _RESULT_ADDR 8 ;;
  code <- i2c_status_code ;;
  if code =? 0 then
    status <- item read_data 4 ;;
    error_id <- item read_data 5 ;;
    ok <- self_interpretStatus status error_id ;;
    if (ok : bool) then
      d0 <- item read_data 0 ;;
      d1 <- item read_data 1 ;;
      let eCO2 := Z.shiftl d0 8 + d1 in
      d2 <- item read_data 2 ;;
      d3 <- item read_data 3 ;;
      let TVOC := Z.shiftl d2 8 + d3 in
      d6 <- item read_data 6 ;;
      let current := Z.land d6 0xFC in
      d6' <- item read_data 6 ;;
      d7 <- item read_data 7 ;;
      let raw_adc := Z.land d6' 0x03 + d7 in
      if (TVOC <? 0) || (32768 <? TVOC) then
        logging_warning "CCS811 eCO2 value is strange." ;;
        ret (-1, -1)
      else ret (eCO2, TVOC)
    else ret (-1, -1)
  else ret (-1, -1).

Definition getECO2ETVOC : M (Z * Z) := getECO2ETVOC_body interpretStatus.

End Driver.

End CCS811.

(** ** devices/max30102.py *)

Module MAX30102.

(** The attributes the methods read from [self], besides the device. *)
Record Self : Type := mkSelf {
  _INIT_CMD_LIST : option (list Z);
  _TRIG_MEAS_LIST : option (list Z);
  _GET_STATUS : option Z
}.

(** [__init__] assigns [_i2cdevice] and nothing else. *)
Definition __init__ : Self := mkSelf None None None.

(** [self.name]: AttributeError when the attribute was never assigned. *)
Definition getattr {A} (name : string) (v : option A) : M A :=
  match v with
  | Some a => ret a
  | None => raise (AttributeError name)
  end.

(** The packed 20-bit fields, as [getHumidityTemperature] computes them. *)
Definition humidity_data (d1 d2 d3 : Z) : Z :=
  Z.shiftl d1 12 + Z.shiftl d2 4 + Z.land d3 0xf0.

Definition temperature_data (d3 d4 d5 : Z) : Z :=
  Z.shiftl (Z.land d3 0x0f) 16 + Z.shiftl d4 8 + d5.

(** The conversions, the calibration [temperature -= 1] included. *)
Definition humidity_of (raw : Z) : Q := (inject_Z raw / 2^20 * 100)%Q.

Definition temperature_of (raw : Z) : Q :=
  (inject_Z raw / 2^20 * 200 - 50 - 1)%Q.

(** The condition of the [Check value] test. *)
Definition fake (humidity temperature : Q) : bool :=
  Qltb temperature (-40) || Qltb 120 temperature
  || Qltb humidity 0 || Qltb 100 humidity.

Section Driver.

Variable wire : nat -> Reply.
Variable self : Self.

Definition initialize : M unit :=
  cmd <- getattr "_INIT_CMD_LIST" (_INIT_CMD_LIST self) ;;
  i2c_write wire cmd ;;
  sleep ;;
  logging_info "MAX30102 initialized.".

Definition getStatus : M (list Z) :=
  addr <- getattr "_GET_STATUS" (_GET_STATUS self) ;;
  i2c_writeread wire addr 1.

Definition checkStatus (status : Z) : M bool :=
  if getBit status 7 =? 1 then
    logging_warning "MAX30102 is busy" ;; ret false
  else if getBit status 3 =? 0 then
    logging_warning "MAX30102 calibration is not enabled" ;;
    initialize ;;
    ret false
  else ret true.

(** The class body defines [initialize], [getStatus], [checkStatus] and
    [getHumidityTemperature] and has no base class: looking up
    [self.softReset] finds nothing. *)
Definition softReset : M unit := raise (AttributeError "softReset").

(** [getHumidityTemperature] with the methods it reaches through [self]
    left open. *)
Definition getHumidityTemperature_body
    (self_checkStatus : Z -> M bool) (self_softReset : M unit)
  : M (Q * Q) :=
  cmd <- getattr "_TRIG_MEAS_LIST" (_TRIG_MEAS_LIST self) ;;
  i2c_write wire cmd ;;
  sleep ;;
  read_data <- i2c_read wire 7 ;;
  code <- i2c_status_code ;;
  if code =? 0 then
    status <- item read_data 0 ;;
    ok <- self_checkStatus status ;;
    if (ok : bool) then
      d1 <- item read_data 1 ;;
      d2 <- item read_data 2 ;;
      d3 <- item read_data 3 ;;
      let hd := humidity_data d1 d2 d3 in
      d3' <- item read_data 3 ;;
      d4 <- item read_data 4 ;;
      d5 <- item read_data 5 ;;
      let td := temperature_data d3' d4 d5 in
      let humidity := humidity_of hd in
      let temperature := temperature_of td in
      if fake humidity temperature then
        logging_warning "MAX30102 humidity/temperature value is fake." ;;
        self_softReset ;;
        ret ((-1)%Q, (-1)%Q)
      else ret (humidity, temperature)
    else ret ((-1)%Q, (-1)%Q)
  else ret ((-1)%Q, (-1)%Q).

Definition getHumidityTemperature : M (Q * Q) :=
  getHumidityTemperature_body checkStatus softReset.

End Driver.

End MAX30102.

(** ** Vocabulary of the specification *)

Definition byte (b : Z) : Prop := 0 <= b < 256.

(** The write transactions among the events of a run. *)
Fixpoint bus_writes (evs : list Event) : list (list Z) :=
  match evs with
  | [] => []
  | Write data :: rest => data :: bus_writes rest
  | _ :: rest => bus_writes rest
  end.

(** The error conditions of the gas sensor as an ordered table of
    (bit of [error_id], reported line): the first bit that is set wins. *)
Definition error_table : list (Z * string) :=
  [ (0, " -- WRITE_REG_INVALID."%string);
    (1, " -- READ_REG_INVALID."%string);
    (2, " -- MEASMODE_INVALID."%string);
    (3, " -- MAX_RESISTANCE. The sensor resistance measurement has reached or exceeded the maximum range."%string);
    (4, " -- HEATER_FAULT. The Heater current in the CCS811 is not in range"%string);
    (5, " -- HEATER_SUPPLY. The Heater voltage is not being applied correctly"%string) ].

Definition first_error (error_id : Z) : list Event :=
  match find (fun p => Z.testbit error_id (fst p)) error_table with
  | Some p => [Log WARNING (snd p)]
  | None => []
  end.

(** A 16-bit Q9 value read back from its (high, low) pair. *)
Definition q9_decode (hi lo : Z) : Q := (inject_Z (hi * 256 + lo) / 512)%Q.

(** The 20-bit fields in the words of the specification: byte 1 in bits
    19-12, byte 2 in bits 11-4 and the high nibble of byte 3 in bits 3-0; the
    low nibble of byte 3 in bits 19-16, byte 4 in bits 15-8 and byte 5 in
    bits 7-0. *)
Definition humidity_raw_spec (d1 d2 d3 : Z) : Z :=
  Z.shiftl d1 12 + Z.shiftl d2 4 + Z.shiftr d3 4.

Definition temperature_raw_spec (d3 d4 d5 : Z) : Z :=
  Z.shiftl (Z.land d3 15) 16 + Z.shiftl d4 8 + d5.

(** ** Concrete transports and instances used in the examples *)

(** A transport that answers every transaction with the same reply. *)
Definition steady (data : list Z) (code : Z) : nat -> Reply :=
  fun _ => mkReply data code.

(** A transport that answers the first transactions from a list, in order,
    and every later one with [last]. *)
Definition scripted (replies : list Reply) (last : Reply) : nat -> Reply :=
  fun n => nth n replies last.

Definition idle : Bus := mkBus 0 0.

(** An instance on which the command sequences of an AHT-style sensor were
    assigned after construction. *)
Definition assigned : MAX30102.Self :=
  MAX30102.mkSelf (Some [0xE1; 0x08; 0x00]) (Some [0xAC; 0x33; 0x00]) (Some 0x71).

(** ** Running the monad *)

Lemma bind_run {A B} (m : M A) (k : A -> M B) (s s1 : Bus) (a : A) (e1 : list Event) :
  m s = mkRun (Ret a) s1 e1 ->
  bind m k s = prepend e1 (k a s1).
Proof. intros H. unfold bind. rewrite H. reflexivity. Qed.

Lemma bind_raise {A B} (m : M A) (k : A -> M B) (s s1 : Bus) (x : Exn) (e1 : list Event) :
  m s = mkRun (Raise x) s1 e1 ->
  bind m k s = mkRun (Raise x) s1 e1.
Proof. intros H. unfold bind. rewrite H. reflexivity. Qed.

Lemma prepend_nil {A} (r : Run A) : prepend [] r = r.
Proof. destruct r. reflexivity. Qed.

Lemma prepend_prepend {A} (e1 e2 : list Event) (r : Run A) :
  prepend e1 (prepend e2 r) = prepend (e1 ++ e2) r.
Proof. unfold prepend. cbn. rewrite app_assoc. reflexivity. Qed.

Lemma i2c_write_run (wire : nat -> Reply) (data : list Z) (s : Bus) :
  i2c_write wire data s =
  mkRun (Ret tt) (mkBus (reply_code (wire (txn s))) (S (txn s))) [Write data].
Proof. reflexivity. Qed.

Lemma i2c_read_run (wire : nat -> Reply) (len : Z) (s : Bus) :
  i2c_read wire len s =
  mkRun (Ret (reply_data (wire (txn s))))
    (mkBus (reply_code (wire (txn s))) (S (txn s))) [Read len].
Proof. reflexivity. Qed.

Lemma item_nth (l : list Z) (i : nat) (b : Z) (s : Bus) :
  nth_error l i = Some b -> item l i s = mkRun (Ret b) s [].
Proof. intros H. unfold item. rewrite H. reflexivity. Qed.

(** ** Bit masks and shifts *)

Lemma land_pow2 (a k : Z) :
  0 <= k -> Z.land a (2 ^ k) = if Z.testbit a k then 2 ^ k else 0.
Proof.
  intros Hk. apply Z.bits_inj'. intros n Hn.
  rewrite Z.land_spec, Z.pow2_bits_eqb by lia.
  destruct (Z.eqb_spec k n) as [->|Hne].
  - rewrite andb_true_r. destruct (Z.testbit a n) eqn:E.
    + now rewrite Z.pow2_bits_true.
    + now rewrite Z.bits_0.
  - rewrite andb_false_r. destruct (Z.testbit a k).
    + now rewrite Z.pow2_bits_false.
    + now rewrite Z.bits_0.
Qed.

Lemma mask_eqb (a k : Z) :
  0 <= k -> (Z.land a (2 ^ k) =? 0) = negb (Z.testbit a k).
Proof.
  intros Hk. rewrite land_pow2 by assumption.
  destruct (Z.testbit a k); simpl; [|reflexivity].
  apply Z.eqb_neq, Z.pow_nonzero; lia.
Qed.

Lemma shiftl_8 (d : Z) : Z.shiftl d 8 = 256 * d.
Proof. rewrite Z.shiftl_mul_pow2 by lia. change (2 ^ 8) with 256. lia. Qed.

(** ** The gas sensor *)

Section CCS811_facts.

Import CCS811.
Variable wire : nat -> Reply.

Lemma softReset_run (s : Bus) :
  softReset wire s =
  mkRun (Ret tt) (mkBus (reply_code (wire (txn s))) (S (txn s)))
    [ Write [0xFF; 0x11; 0xE5; 0x72; 0x8A]; Sleep;
      Log INFO "CCS811 did soft reset and return to boot mode." ].
Proof. reflexivity. Qed.

Lemma initialize_run (s : Bus) :
  initialize wire s =
  mkRun (Ret tt) (mkBus (reply_code (wire (S (txn s)))) (S (S (txn s))))
    [ Write [0xF4]; Sleep; Log INFO "CCS811 initialized.";
      Write [0x01; 0x10]; Sleep; Log INFO "CCS811 set to measurement mode." ].
Proof. reflexivity. Qed.

Lemma report_error_id_run (error_id : Z) (s : Bus) :
  report_error_id error_id s = mkRun (Ret tt) s (first_error error_id).
Proof.
  unfold report_error_id, first_error, error_table, find, fst, snd.
  rewrite !mask_eqb by lia. rewrite !negb_involutive.
  repeat match goal with
         | |- context [Z.testbit error_id ?k] =>
             destruct (Z.testbit error_id k); [reflexivity|]
         end.
  reflexivity.
Qed.

Lemma interpretStatus_error (status error_id : Z) (s : Bus) :
  Z.testbit status 0 = true ->
  interpretStatus wire status error_id s =
  mkRun (Ret false)
    (mkBus (reply_code (wire (S (S (txn s))))) (S (S (S (txn s)))))
    (Log WARNING "CCS811 has error" :: first_error error_id
       ++ emitted (softReset wire s)
       ++ emitted (initialize wire (final (softReset wire s)))).
Proof.
  intros H0. unfold interpretStatus.
  rewrite mask_eqb, H0 by lia. cbn [negb].
  erewrite bind_run by reflexivity.
  erewrite bind_run by apply report_error_id_run.
  erewrite bind_run by apply softReset_run.
  erewrite bind_run by apply initialize_run.
  rewrite softReset_run, initialize_run.
  unfold prepend, ret. cbn -[first_error]. reflexivity.
Qed.

Lemma interpretStatus_valid (status error_id : Z) (s : Bus) :
  Z.testbit status 0 = false -> Z.testbit status 3 = true ->
  Z.testbit status 4 = true -> Z.testbit status 7 = true ->
  interpretStatus wire status error_id s = mkRun (Ret true) s [].
Proof.
  intros H0 H3 H4 H7. unfold interpretStatus.
  rewrite !mask_eqb by lia. rewrite H0, H3, H4, H7. reflexivity.
Qed.

End CCS811_facts.

Lemma bus_writes_app (xs ys : list Event) :
  bus_writes (xs ++ ys) = bus_writes xs ++ bus_writes ys.
Proof.
  induction xs as [|e xs IH]; [reflexivity|].
  destruct e; simpl; rewrite IH; reflexivity.
Qed.

Lemma bus_writes_first_error (error_id : Z) :
  bus_writes (first_error error_id) = [].
Proof. unfold first_error. destruct (find _ _); reflexivity. Qed.

Section CCS811_readings.

Import CCS811.
Variable wire : nat -> Reply.

(** One call of [getECO2ETVOC] on a successful transaction that returned
    eight bytes, whatever [self.interpretStatus] is, as long as it returns. *)
Lemma getECO2ETVOC_body_run (f : Z -> Z -> M bool) (s s' : Bus)
    (d0 d1 d2 d3 status error_id d6 d7 : Z) (ok : bool) (evs : list Event) :
  wire (txn s) = mkReply [d0; d1; d2; d3; status; error_id; d6; d7] 0 ->
  f status error_id (mkBus 0 (S (txn s))) = mkRun (Ret ok) s' evs ->
  getECO2ETVOC_body wire f s =
  let eCO2 := Z.shiftl d0 8 + d1 in
  let TVOC := Z.shiftl d2 8 + d3 in
  if ok then
    if (TVOC <? 0) || (32768 <? TVOC) then
      mkRun (Ret (-1, -1)) s'
        (WriteRead 0x02 8 :: evs ++ [Log WARNING "CCS811 eCO2 value is strange."])
    else mkRun (Ret (eCO2, TVOC)) s' (WriteRead 0x02 8 :: evs)
  else mkRun (Ret (-1, -1)) s' (WriteRead 0x02 8 :: evs).
Proof.
  intros Hw Hf. unfold getECO2ETVOC_body.
  erewrite bind_run by (unfold i2c_writeread, transact; rewrite Hw; reflexivity).
  cbv beta. cbn [reply_data reply_code].
  erewrite bind_run by reflexivity. cbn [status_code].
  change (0 =? 0) with true. cbv beta iota.
  do 2 (erewrite bind_run by reflexivity; cbv beta).
  erewrite bind_run by exact Hf. cbv beta.
  rewrite !prepend_nil.
  destruct ok.
  - do 7 (erewrite bind_run by reflexivity; cbv beta).
    rewrite !prepend_nil. cbv zeta.
    destruct ((Z.shiftl d2 8 + d3 <? 0) || (32768 <? Z.shiftl d2 8 + d3)).
    + reflexivity.
    + unfold prepend, ret. cbn [outcome final emitted app].
      rewrite app_nil_r. reflexivity.
  - unfold prepend, ret. cbn [outcome final emitted app].
    rewrite app_nil_r. reflexivity.
Qed.

(** A failed transaction: nothing of the reply is looked at. *)
Lemma getECO2ETVOC_body_failed (f : Z -> Z -> M bool) (s : Bus) :
  reply_code (wire (txn s)) <> 0 ->
  getECO2ETVOC_body wire f s =
  mkRun (Ret (-1, -1)) (mkBus (reply_code (wire (txn s))) (S (txn s)))
    [WriteRead 0x02 8].
Proof.
  intros Hc. unfold getECO2ETVOC_body.
  erewrite bind_run by reflexivity. cbv beta.
  erewrite bind_run by reflexivity. cbv beta. cbn [status_code].
  apply Z.eqb_neq in Hc. rewrite Hc. reflexivity.
Qed.

End CCS811_readings.

(** ** Claims about the gas sensor *)

(** C1.  On a successful result-register transaction that returned eight
    bytes whose status byte has the error bit clear and the data-ready,
    firmware-valid and application-mode bits set, [getECO2ETVOC] returns the
    big-endian pair (256*byte0 + byte1, 256*byte2 + byte3) when the eTVOC
    value lies in [0, 32768] and (-1, -1) when it does not; nothing is asked
    of the eCO2 value. *)
Theorem getECO2ETVOC_big_endian_pair
    (wire : nat -> Reply) (s : Bus) (d0 d1 d2 d3 status error_id d6 d7 : Z) :
  wire (txn s) = mkReply [d0; d1; d2; d3; status; error_id; d6; d7] 0 ->
  Z.testbit status 0 = false ->
  Z.testbit status 3 = true ->
  Z.testbit status 4 = true ->
  Z.testbit status 7 = true ->
  (0 <= 256 * d2 + d3 <= 32768 ->
   outcome (CCS811.getECO2ETVOC wire s) = Ret (256 * d0 + d1, 256 * d2 + d3)) /\
  (~ 0 <= 256 * d2 + d3 <= 32768 ->
   outcome (CCS811.getECO2ETVOC wire s) = Ret (-1, -1)).
Proof.
  intros Hw H0 H3 H4 H7. unfold CCS811.getECO2ETVOC.
  rewrite (getECO2ETVOC_body_run wire _ s _ d0 d1 d2 d3 status error_id d6 d7
             true [] Hw)
    by (apply interpretStatus_valid; assumption).
  cbv zeta. rewrite !shiftl_8. split; intros Hr.
  - replace ((256 * d2 + d3 <? 0) || (32768 <? 256 * d2 + d3)) with false;
      [reflexivity|].
    symmetry. apply orb_false_iff. split; apply Z.ltb_ge; lia.
  - replace ((256 * d2 + d3 <? 0) || (32768 <? 256 * d2 + d3)) with true;
      [reflexivity|].
    symmetry. apply orb_true_iff.
    destruct (Z.ltb_spec (256 * d2 + d3) 0); [now left|].
    right. apply Z.ltb_lt. lia.
Qed.

Lemma getECO2ETVOC_big_endian_pair_witness :
  outcome (CCS811.getECO2ETVOC (steady [0x01; 0x90; 0x00; 0x2A; 0x98; 0; 0; 0] 0) idle)
  = Ret (400, 42)
  /\ outcome (CCS811.getECO2ETVOC (steady [0xFF; 0xFF; 0x80; 0x01; 0x98; 0; 0; 0] 0) idle)
     = Ret (-1, -1).
Proof.
  split.
  - apply (getECO2ETVOC_big_endian_pair
             (steady [0x01; 0x90; 0x00; 0x2A; 0x98; 0; 0; 0] 0) idle
             0x01 0x90 0x00 0x2A 0x98 0 0 0);
      try reflexivity; lia.
  - apply (getECO2ETVOC_big_endian_pair
             (steady [0xFF; 0xFF; 0x80; 0x01; 0x98; 0; 0; 0] 0) idle
             0xFF 0xFF 0x80 0x01 0x98 0 0 0);
      try reflexivity; lia.
Defined.

(** The eCO2 value is not checked: 65535 ppm, above the documented 29206,
    and 0 ppm, below the documented 400, are both returned. *)
Example getECO2ETVOC_eCO2_unchecked :
  outcome (CCS811.getECO2ETVOC (steady [0xFF; 0xFF; 0x00; 0x2A; 0x98; 0; 0; 0] 0) idle)
  = Ret (65535, 42)
  /\ outcome (CCS811.getECO2ETVOC (steady [0; 0; 0x00; 0x2A; 0x98; 0; 0; 0] 0) idle)
     = Ret (0, 42).
Proof. split; reflexivity. Qed.

(** C10.  The TVOC value decoded from two bytes lies in [0, 65535], so the
    [TVOC < 0] arm of the check never fires; on a valid status the reading is
    rejected exactly when TVOC > 32768, and 32768 itself is accepted. *)
Theorem getECO2ETVOC_TVOC_rejection
    (wire : nat -> Reply) (s : Bus) (d0 d1 d2 d3 status error_id d6 d7 : Z) :
  wire (txn s) = mkReply [d0; d1; d2; d3; status; error_id; d6; d7] 0 ->
  Z.testbit status 0 = false ->
  Z.testbit status 3 = true ->
  Z.testbit status 4 = true ->
  Z.testbit status 7 = true ->
  byte d2 -> byte d3 ->
  let TVOC := Z.shiftl d2 8 + d3 in
  0 <= TVOC <= 65535 /\
  (TVOC <? 0) = false /\
  (outcome (CCS811.getECO2ETVOC wire s) = Ret (-1, -1) <-> 32768 < TVOC) /\
  (TVOC = 32768 ->
   outcome (CCS811.getECO2ETVOC wire s) = Ret (Z.shiftl d0 8 + d1, 32768)).
Proof.
  intros Hw H0 H3 H4 H7 B2 B3 TVOC. unfold byte in B2, B3.
  assert (HT : 0 <= TVOC <= 65535) by (unfold TVOC; rewrite shiftl_8; lia).
  assert (Hneg : (TVOC <? 0) = false) by (apply Z.ltb_ge; lia).
  unfold CCS811.getECO2ETVOC.
  rewrite (getECO2ETVOC_body_run wire _ s _ d0 d1 d2 d3 status error_id d6 d7
             true [] Hw)
    by (apply interpretStatus_valid; assumption).
  cbv zeta. fold TVOC. rewrite Hneg. cbn [orb].
  split; [exact HT|]. split; [reflexivity|]. split.
  - destruct (Z.ltb_spec 32768 TVOC) as [Hlt|Hge]; cbn [outcome].
    + split; [intros _; exact Hlt | reflexivity].
    + split; [intros E; inversion E; lia | intros Hlt; lia].
  - intros E.
    replace (32768 <? TVOC) with false by (symmetry; apply Z.ltb_ge; lia).
    cbn [outcome]. rewrite <- E. reflexivity.
Qed.

Lemma getECO2ETVOC_TVOC_rejection_witness :
  outcome (CCS811.getECO2ETVOC (steady [0x01; 0x90; 0x80; 0x00; 0x98; 0; 0; 0] 0) idle)
  = Ret (Z.shiftl 0x01 8 + 0x90, 32768).
Proof.
  apply (getECO2ETVOC_TVOC_rejection
           (steady [0x01; 0x90; 0x80; 0x00; 0x98; 0; 0; 0] 0) idle
           0x01 0x90 0x80 0x00 0x98 0 0 0);
    try reflexivity; unfold byte; lia.
Defined.

(** C3.  When bit 0 of the status is set, [interpretStatus] reports at most
    one line for [error_id], the one of the lowest set bit among bits 0-5,
    then runs [softReset] once and [initialize] once, in this order, and
    returns False; a [getECO2ETVOC] call that reads such a status returns
    (-1, -1). *)
Theorem interpretStatus_error_recovery
    (wire : nat -> Reply) (status error_id : Z) (s : Bus) :
  Z.testbit status 0 = true ->
  outcome (CCS811.interpretStatus wire status error_id s) = Ret false /\
  emitted (CCS811.interpretStatus wire status error_id s) =
    Log WARNING "CCS811 has error" :: first_error error_id
      ++ emitted (CCS811.softReset wire s)
      ++ emitted (CCS811.initialize wire (final (CCS811.softReset wire s))) /\
  bus_writes (emitted (CCS811.interpretStatus wire status error_id s)) =
    [[0xFF; 0x11; 0xE5; 0x72; 0x8A]; [0xF4]; [0x01; 0x10]] /\
  (forall (s' : Bus) (payload : list Z) (code : Z),
      wire (txn s') = mkReply payload code ->
      nth_error payload 4 = Some status ->
      nth_error payload 5 = Some error_id ->
      outcome (CCS811.getECO2ETVOC wire s') = Ret (-1, -1)).
Proof.
  intros H0. rewrite interpretStatus_error by assumption.
  cbn [outcome emitted]. repeat split.
  - cbn [bus_writes]. rewrite bus_writes_app, bus_writes_first_error.
    reflexivity.
  - intros s' payload code Hw H4 H5.
    destruct (Z.eq_dec code 0) as [->|Hc].
    + unfold CCS811.getECO2ETVOC, CCS811.getECO2ETVOC_body.
      erewrite bind_run
        by (unfold i2c_writeread, transact; rewrite Hw; reflexivity).
      cbv beta. cbn [reply_data reply_code].
      erewrite bind_run by reflexivity. cbn [status_code].
      change (0 =? 0) with true. cbv beta iota.
      erewrite bind_run by (apply item_nth; exact H4). cbv beta.
      erewrite bind_run by (apply item_nth; exact H5). cbv beta.
      erewrite bind_run by (apply interpretStatus_error; exact H0).
      reflexivity.
    + unfold CCS811.getECO2ETVOC.
      rewrite getECO2ETVOC_body_failed by (rewrite Hw; exact Hc).
      reflexivity.
Qed.

Lemma interpretStatus_error_recovery_witness :
  outcome (CCS811.interpretStatus (steady [] 0) 1 1 idle) = Ret false.
Proof.
  apply (interpretStatus_error_recovery (steady [] 0) 1 1 idle).
  reflexivity.
Defined.

(** The scenario of the specification: status 0b00000001 with error_id
    0b00000001 logs WRITE_REG_INVALID, resets, initializes, and the reading
    is (-1, -1). *)
Example getECO2ETVOC_write_reg_invalid :
  CCS811.getECO2ETVOC (steady [0; 0; 0; 0; 1; 1; 0; 0] 0) idle =
  mkRun (Ret (-1, -1)) (mkBus 0 4)
    [ WriteRead 0x02 8;
      Log WARNING "CCS811 has error";
      Log WARNING " -- WRITE_REG_INVALID.";
      Write [0xFF; 0x11; 0xE5; 0x72; 0x8A]; Sleep;
      Log INFO "CCS811 did soft reset and return to boot mode.";
      Write [0xF4]; Sleep; Log INFO "CCS811 initialized.";
      Write [0x01; 0x10]; Sleep; Log INFO "CCS811 set to measurement mode." ].
Proof. reflexivity. Qed.

(** The lowest set bit decides: with bits 1 and 4 set the report is
    READ_REG_INVALID, and with no bit of 0-5 set nothing is reported. *)
Example first_error_priority :
  first_error 0x12 = [Log WARNING " -- READ_REG_INVALID."]
  /\ first_error 0x40 = [].
Proof. split; reflexivity. Qed.

(** C5 (as amended).  [softReset] performs one write transaction of five
    bytes, the address 0xFF and the four key bytes 0x11, 0xE5, 0x72, 0x8A. *)
Theorem softReset_five_bytes (wire : nat -> Reply) (s : Bus) :
  bus_writes (emitted (CCS811.softReset wire s))
  = [[0xFF; 0x11; 0xE5; 0x72; 0x8A]]
  /\ emitted (CCS811.softReset wire s)
     = [ Write (CCS811._SW_RESET :: [0x11; 0xE5; 0x72; 0x8A]); Sleep;
         Log INFO "CCS811 did soft reset and return to boot mode." ]
  /\ List.length (CCS811._SW_RESET :: [0x11; 0xE5; 0x72; 0x8A]) = 5%nat.
Proof. repeat split. Qed.

(** C5 as stated fails: the bytes written after the address 0xFF are not
    0x11, 0xE5, 0x8A. *)
Lemma softReset_key_not_three_bytes :
  ~ (exists data : list Z,
        bus_writes (emitted (CCS811.softReset (steady [] 0) idle)) = [data]
        /\ data = 0xFF :: [0x11; 0xE5; 0x8A]).
Proof. intros [data [H1 H2]]. subst data. discriminate H1. Qed.

(** ** The humidity and temperature sensor *)

Section MAX30102_facts.

Import MAX30102.
Variable wire : nat -> Reply.
Variable self : Self.

Lemma checkStatus_valid (status : Z) (s : Bus) :
  Z.testbit status 7 = false -> Z.testbit status 3 = true ->
  checkStatus wire self status s = mkRun (Ret true) s [].
Proof.
  intros H7 H3. unfold checkStatus, getBit. rewrite H7, H3. reflexivity.
Qed.

(** A failed read: nothing of the reply is looked at. *)
Lemma getHumidityTemperature_body_failed
    (chk : Z -> M bool) (rst : M unit) (trig : list Z) (s : Bus) :
  _TRIG_MEAS_LIST self = Some trig ->
  reply_code (wire (S (txn s))) <> 0 ->
  getHumidityTemperature_body wire self chk rst s =
  mkRun (Ret ((-1)%Q, (-1)%Q))
    (mkBus (reply_code (wire (S (txn s)))) (S (S (txn s))))
    [Write trig; Sleep; Read 7].
Proof.
  intros Ht Hc. unfold getHumidityTemperature_body. rewrite Ht.
  erewrite bind_run by reflexivity. cbv beta.
  erewrite bind_run by apply i2c_write_run. cbv beta.
  erewrite bind_run by reflexivity. cbv beta.
  erewrite bind_run by apply i2c_read_run. cbv beta.
  erewrite bind_run by reflexivity. cbv beta.
  cbn [status_code txn]. apply Z.eqb_neq in Hc. rewrite Hc. reflexivity.
Qed.

(** A successful read of seven bytes, whatever [self.checkStatus] and
    [self.softReset] are. *)
Lemma getHumidityTemperature_body_run
    (chk : Z -> M bool) (rst : M unit) (trig : list Z) (s s' : Bus)
    (status d1 d2 d3 d4 d5 d6 : Z) (ok : bool) (evs : list Event) :
  _TRIG_MEAS_LIST self = Some trig ->
  wire (S (txn s)) = mkReply [status; d1; d2; d3; d4; d5; d6] 0 ->
  chk status (mkBus 0 (S (S (txn s)))) = mkRun (Ret ok) s' evs ->
  getHumidityTemperature_body wire self chk rst s =
  let humidity := humidity_of (humidity_data d1 d2 d3) in
  let temperature := temperature_of (temperature_data d3 d4 d5) in
  if ok then
    if fake humidity temperature then
      mkRun (match outcome (rst s') with
             | Ret _ => Ret ((-1)%Q, (-1)%Q)
             | Raise e => Raise e
             end)
        (final (rst s'))
        (Write trig :: Sleep :: Read 7 :: evs
           ++ Log WARNING "MAX30102 humidity/temperature value is fake."
           :: emitted (rst s'))
    else mkRun (Ret (humidity, temperature)) s'
           (Write trig :: Sleep :: Read 7 :: evs)
  else mkRun (Ret ((-1)%Q, (-1)%Q)) s' (Write trig :: Sleep :: Read 7 :: evs).
Proof.
  intros Ht Hw Hk. unfold getHumidityTemperature_body. rewrite Ht.
  erewrite bind_run by reflexivity. cbv beta.
  erewrite bind_run by apply i2c_write_run. cbv beta.
  erewrite bind_run by reflexivity. cbv beta.
  erewrite bind_run by apply i2c_read_run. cbv beta.
  cbn [txn]. rewrite Hw. cbn [reply_data reply_code].
  erewrite bind_run by reflexivity. cbv beta. cbn [status_code].
  change (0 =? 0) with true. cbv iota.
  erewrite bind_run by reflexivity. cbv beta.
  erewrite bind_run by exact Hk. cbv beta.
  rewrite !prepend_nil, !prepend_prepend. cbn [app].
  destruct ok.
  - do 6 (erewrite bind_run by reflexivity; cbv beta).
    rewrite !prepend_nil. cbv zeta.
    destruct (fake (humidity_of (humidity_data d1 d2 d3))
                (temperature_of (temperature_data d3 d4 d5))).
    + erewrite bind_run by reflexivity. cbv beta.
      unfold bind. destruct (rst s') as [o s'' ev2].
      destruct o; unfold prepend, ret; cbn [outcome final emitted app];
        rewrite ?app_nil_r; reflexivity.
    + unfold prepend, ret. cbn [outcome final emitted app].
      rewrite app_nil_r. reflexivity.
  - unfold prepend, ret. cbn [outcome final emitted app].
    rewrite app_nil_r. reflexivity.
Qed.

End MAX30102_facts.

(** ** Claims about transport failures *)

(** C7 (as amended).  When the write-read transaction of [getECO2ETVOC], or
    the read transaction of [getHumidityTemperature], left a non-zero status
    code, the accessor returns (-1, -1), and the run is the same whatever
    the status interpretation reached through [self] is: it is not called.
    The reply to the trigger write of [getHumidityTemperature] is left
    unconstrained: its status code is not looked at. *)
Theorem transport_failure_skips_interpretation :
  (forall (wire : nat -> Reply) (s : Bus),
      reply_code (wire (txn s)) <> 0 ->
      (forall f : Z -> Z -> M bool,
          CCS811.getECO2ETVOC_body wire f s =
          mkRun (Ret (-1, -1)) (mkBus (reply_code (wire (txn s))) (S (txn s)))
            [WriteRead 0x02 8]) /\
      outcome (CCS811.getECO2ETVOC wire s) = Ret (-1, -1)) /\
  (forall (wire : nat -> Reply) (self : MAX30102.Self) (trig : list Z) (s : Bus),
      MAX30102._TRIG_MEAS_LIST self = Some trig ->
      reply_code (wire (S (txn s))) <> 0 ->
      (forall (chk : Z -> M bool) (rst : M unit),
          MAX30102.getHumidityTemperature_body wire self chk rst s =
          mkRun (Ret ((-1)%Q, (-1)%Q))
            (mkBus (reply_code (wire (S (txn s)))) (S (S (txn s))))
            [Write trig; Sleep; Read 7]) /\
      outcome (MAX30102.getHumidityTemperature wire self s)
      = Ret ((-1)%Q, (-1)%Q)).
Proof.
  split.
  - intros wire s Hc. split.
    + intros f. apply getECO2ETVOC_body_failed. exact Hc.
    + unfold CCS811.getECO2ETVOC.
      rewrite getECO2ETVOC_body_failed by exact Hc. reflexivity.
  - intros wire self trig s Ht Hc. split.
    + intros chk rst.
      apply getHumidityTemperature_body_failed; assumption.
    + unfold MAX30102.getHumidityTemperature.
      rewrite (getHumidityTemperature_body_failed wire self _ _ trig s Ht Hc).
      reflexivity.
Qed.

Lemma transport_failure_skips_interpretation_witness :
  outcome (CCS811.getECO2ETVOC (steady [1; 2; 3; 4; 0x98; 0; 0; 0] 5) idle)
  = Ret (-1, -1)
  /\ outcome (MAX30102.getHumidityTemperature
                (steady [0x08; 0x80; 0; 0x15; 0; 0; 0] 5) assigned idle)
     = Ret ((-1)%Q, (-1)%Q).
Proof.
  destruct transport_failure_skips_interpretation as [H1 H2].
  split.
  - apply (H1 (steady [1; 2; 3; 4; 0x98; 0; 0; 0] 5) idle). discriminate.
  - apply (H2 (steady [0x08; 0x80; 0; 0x15; 0; 0; 0] 5) assigned
             [0xAC; 0x33; 0x00] idle); [reflexivity | discriminate].
Defined.

(** C7 as stated fails for the trigger write of [getHumidityTemperature]:
    when that write leaves status code 9 and the read that follows succeeds,
    the status byte is interpreted and the converted reading is returned,
    not (-1, -1). *)
Lemma getHumidityTemperature_failed_trigger_write :
  reply_code
    (scripted [mkReply [] 9] (mkReply [0x08; 0x80; 0; 0x15; 0; 0; 0] 0)
       (txn idle)) = 9
  /\ MAX30102.getHumidityTemperature
       (scripted [mkReply [] 9] (mkReply [0x08; 0x80; 0; 0x15; 0; 0; 0] 0))
       assigned idle
     = mkRun (Ret (MAX30102.humidity_of 524304, MAX30102.temperature_of 327680))
         (mkBus 0 2) [Write [0xAC; 0x33; 0x00]; Sleep; Read 7]
  /\ ~ (MAX30102.humidity_of 524304 == -1)%Q
  /\ ~ (MAX30102.temperature_of 327680 == -1)%Q.
Proof.
  split; [reflexivity|]. split; [reflexivity|].
  split; intros E; apply Qeq_bool_iff in E; discriminate E.
Qed.

(** ** Comparisons on rationals *)

Lemma Qltb_lt (x y : Q) : Qltb x y = true <-> (x < y)%Q.
Proof.
  unfold Qltb. rewrite negb_true_iff.
  split.
  - intros H. apply Qnot_le_lt. intros Hle.
    apply Qle_bool_iff in Hle. congruence.
  - intros H. destruct (Qle_bool y x) eqn:E; [|reflexivity].
    apply Qle_bool_iff in E. exfalso. exact (Qlt_not_le _ _ H E).
Qed.

Lemma fake_true (h t : Q) :
  MAX30102.fake h t = true <->
  (t < -40 \/ 120 < t \/ h < 0 \/ 100 < h)%Q.
Proof.
  unfold MAX30102.fake. rewrite !orb_true_iff, !Qltb_lt. tauto.
Qed.

Lemma fake_false (h t : Q) :
  MAX30102.fake h t = false ->
  (-40 <= t /\ t <= 120 /\ 0 <= h /\ h <= 100)%Q.
Proof.
  intros H.
  assert (N : ~ (t < -40 \/ 120 < t \/ h < 0 \/ 100 < h)%Q)
    by (rewrite <- fake_true, H; discriminate).
  repeat split; apply Qnot_lt_le; intros L; apply N; tauto.
Qed.

(** ** Claims about the humidity and temperature sensor *)

(** The temperature field is packed as the specification says. *)
Lemma temperature_data_as_specified (d3 d4 d5 : Z) :
  MAX30102.temperature_data d3 d4 d5 = temperature_raw_spec d3 d4 d5.
Proof. reflexivity. Qed.

(** Raw temperature 0 converts to -51: the offset of -1 comes after the
    scaling. *)
Lemma temperature_of_zero : (MAX30102.temperature_of 0 == -51)%Q.
Proof. reflexivity. Qed.

(** The humidity field is not: for a byte [d3] it exceeds the packed 20-bit
    value by 15 times the high nibble of [d3]. *)
Lemma byte_land_f0 (d : Z) : byte d -> Z.land d 0xf0 = 16 * (d / 16).
Proof.
  intros [H0 H1].
  assert (H : forallb (fun x => Z.land x 0xf0 =? 16 * (x / 16))
                (map Z.of_nat (seq 0 256)) = true)
    by (vm_compute; reflexivity).
  rewrite forallb_forall in H. apply Z.eqb_eq, H.
  apply in_map_iff. exists (Z.to_nat d). split; [lia|].
  apply in_seq. lia.
Qed.

Lemma humidity_data_excess (d1 d2 d3 : Z) :
  byte d3 ->
  MAX30102.humidity_data d1 d2 d3
  = humidity_raw_spec d1 d2 d3 + 15 * (d3 / 16).
Proof.
  intros B. unfold MAX30102.humidity_data, humidity_raw_spec.
  rewrite byte_land_f0 by exact B.
  rewrite (Z.shiftr_div_pow2 d3 4) by lia. change (2 ^ 4) with 16. lia.
Qed.

(** A valid reading within the plausible ranges is returned as converted. *)
Lemma getHumidityTemperature_valid
    (wire : nat -> Reply) (self : MAX30102.Self) (trig : list Z) (s : Bus)
    (status d1 d2 d3 d4 d5 d6 : Z) :
  MAX30102._TRIG_MEAS_LIST self = Some trig ->
  wire (S (txn s)) = mkReply [status; d1; d2; d3; d4; d5; d6] 0 ->
  Z.testbit status 7 = false -> Z.testbit status 3 = true ->
  MAX30102.fake (MAX30102.humidity_of (MAX30102.humidity_data d1 d2 d3))
    (MAX30102.temperature_of (MAX30102.temperature_data d3 d4 d5)) = false ->
  MAX30102.getHumidityTemperature wire self s =
  mkRun (Ret (MAX30102.humidity_of (MAX30102.humidity_data d1 d2 d3),
              MAX30102.temperature_of (temperature_raw_spec d3 d4 d5)))
    (mkBus 0 (S (S (txn s)))) [Write trig; Sleep; Read 7].
Proof.
  intros Ht Hw H7 H3 Hf. unfold MAX30102.getHumidityTemperature.
  rewrite (getHumidityTemperature_body_run wire self _ _ trig s _
             status d1 d2 d3 d4 d5 d6 true [] Ht Hw)
    by (apply checkStatus_valid; assumption).
  cbv zeta. rewrite Hf. reflexivity.
Qed.

(** C2 (the code departs from it).  The temperature is converted from the
    20-bit field the claim describes, but the humidity is not: the high
    nibble of byte 3 is added at bits 7-4 instead of bits 3-0.  With bytes
    0x80, 0x00, 0x15 after a valid status the driver converts 524304 where
    the packed 20-bit value is 524289, and returns a different humidity. *)
Theorem getHumidityTemperature_humidity_nibble_unshifted :
  outcome (MAX30102.getHumidityTemperature
             (steady [0x08; 0x80; 0x00; 0x15; 0x00; 0x00; 0x00] 0) assigned idle)
  = Ret (MAX30102.humidity_of 524304,
         MAX30102.temperature_of (temperature_raw_spec 0x15 0x00 0x00))
  /\ humidity_raw_spec 0x80 0x00 0x15 = 524289
  /\ ~ (MAX30102.humidity_of 524304
        == MAX30102.humidity_of (humidity_raw_spec 0x80 0x00 0x15))%Q.
Proof.
  split; [|split].
  - rewrite (getHumidityTemperature_valid _ assigned [0xAC; 0x33; 0x00] idle
               0x08 0x80 0x00 0x15 0x00 0x00 0x00);
      reflexivity.
  - reflexivity.
  - intros E. apply Qeq_bool_iff in E. discriminate E.
Qed.

(** C4 (the code departs from it).  When the converted temperature is
    outside [-40, 120] or the converted humidity outside [0, 100], the driver
    logs its warning and looks up [self.softReset]; the class has no such
    method, so the call raises AttributeError and no pair is returned. *)
Theorem getHumidityTemperature_implausible_raises
    (wire : nat -> Reply) (self : MAX30102.Self) (trig : list Z) (s : Bus)
    (status d1 d2 d3 d4 d5 d6 : Z) :
  MAX30102._TRIG_MEAS_LIST self = Some trig ->
  wire (S (txn s)) = mkReply [status; d1; d2; d3; d4; d5; d6] 0 ->
  Z.testbit status 7 = false -> Z.testbit status 3 = true ->
  (let h := MAX30102.humidity_of (MAX30102.humidity_data d1 d2 d3) in
   let t := MAX30102.temperature_of (MAX30102.temperature_data d3 d4 d5) in
   t < -40 \/ 120 < t \/ h < 0 \/ 100 < h)%Q ->
  MAX30102.getHumidityTemperature wire self s =
  mkRun (Raise (AttributeError "softReset")) (mkBus 0 (S (S (txn s))))
    [ Write trig; Sleep; Read 7;
      Log WARNING "MAX30102 humidity/temperature value is fake." ].
Proof.
  intros Ht Hw H7 H3 Hr. cbv zeta in Hr. apply fake_true in Hr.
  unfold MAX30102.getHumidityTemperature.
  rewrite (getHumidityTemperature_body_run wire self _ _ trig s _
             status d1 d2 d3 d4 d5 d6 true [] Ht Hw)
    by (apply checkStatus_valid; assumption).
  cbv zeta. rewrite Hr. reflexivity.
Qed.

Lemma getHumidityTemperature_implausible_raises_witness :
  MAX30102.getHumidityTemperature
    (steady [0x08; 0; 0; 0; 0; 0; 0] 0) assigned idle =
  mkRun (Raise (AttributeError "softReset")) (mkBus 0 2)
    [ Write [0xAC; 0x33; 0x00]; Sleep; Read 7;
      Log WARNING "MAX30102 humidity/temperature value is fake." ].
Proof.
  apply (getHumidityTemperature_implausible_raises
           (steady [0x08; 0; 0; 0; 0; 0; 0] 0) assigned [0xAC; 0x33; 0x00] idle
           0x08 0 0 0 0 0 0); try reflexivity.
  left. reflexivity.
Defined.

(** With a [softReset] that returns, the same reading would give (-1, -1):
    the missing method is all that separates the code from the claim. *)
Lemma getHumidityTemperature_body_implausible
    (wire : nat -> Reply) (self : MAX30102.Self) (trig : list Z) (s s' : Bus)
    (rst : M unit) (evs : list Event) (status d1 d2 d3 d4 d5 d6 : Z) :
  MAX30102._TRIG_MEAS_LIST self = Some trig ->
  wire (S (txn s)) = mkReply [status; d1; d2; d3; d4; d5; d6] 0 ->
  Z.testbit status 7 = false -> Z.testbit status 3 = true ->
  MAX30102.fake (MAX30102.humidity_of (MAX30102.humidity_data d1 d2 d3))
    (MAX30102.temperature_of (MAX30102.temperature_data d3 d4 d5)) = true ->
  rst (mkBus 0 (S (S (txn s)))) = mkRun (Ret tt) s' evs ->
  outcome (MAX30102.getHumidityTemperature_body wire self
             (MAX30102.checkStatus wire self) rst s)
  = Ret ((-1)%Q, (-1)%Q).
Proof.
  intros Ht Hw H7 H3 Hf Hrst.
  rewrite (getHumidityTemperature_body_run wire self _ _ trig s _
             status d1 d2 d3 d4 d5 d6 true [] Ht Hw)
    by (apply checkStatus_valid; assumption).
  cbv zeta. rewrite Hf. cbn [outcome]. rewrite Hrst. reflexivity.
Qed.

(** C9 (the code departs from it).  The constructor assigns neither command
    sequence, so on the instance it builds [initialize] and
    [getHumidityTemperature] raise AttributeError before any transaction. *)
Theorem command_sequences_never_assigned (wire : nat -> Reply) (s : Bus) :
  MAX30102._INIT_CMD_LIST MAX30102.__init__ = None
  /\ MAX30102._TRIG_MEAS_LIST MAX30102.__init__ = None
  /\ MAX30102.initialize wire MAX30102.__init__ s
     = mkRun (Raise (AttributeError "_INIT_CMD_LIST")) s []
  /\ MAX30102.getHumidityTemperature wire MAX30102.__init__ s
     = mkRun (Raise (AttributeError "_TRIG_MEAS_LIST")) s [].
Proof. repeat split. Qed.

(** On an instance where the two sequences were assigned, [initialize] writes
    the first and [getHumidityTemperature] writes the second, pauses and
    reads seven bytes. *)
Lemma command_sequences_when_assigned
    (wire : nat -> Reply) (self : MAX30102.Self) (ini trig : list Z) (s : Bus) :
  MAX30102._INIT_CMD_LIST self = Some ini ->
  MAX30102._TRIG_MEAS_LIST self = Some trig ->
  emitted (MAX30102.initialize wire self s)
  = [Write ini; Sleep; Log INFO "MAX30102 initialized."]
  /\ exists rest,
      emitted (MAX30102.getHumidityTemperature wire self s)
      = Write trig :: Sleep :: Read 7 :: rest.
Proof.
  intros Hi Ht. split.
  - unfold MAX30102.initialize. rewrite Hi. reflexivity.
  - unfold MAX30102.getHumidityTemperature, MAX30102.getHumidityTemperature_body.
    rewrite Ht.
    erewrite bind_run by reflexivity. cbv beta.
    erewrite bind_run by apply i2c_write_run. cbv beta.
    erewrite bind_run by reflexivity. cbv beta.
    erewrite bind_run by apply i2c_read_run. cbv beta.
    unfold prepend at 1 2 3 4. cbn [emitted app]. eexists. reflexivity.
Qed.

(** ** Returned pairs *)

Lemma item_ret (l : list Z) (i : nat) (s s' : Bus) (b : Z) (ev : list Event) :
  item l i s = mkRun (Ret b) s' ev -> In b l.
Proof.
  unfold item. destruct (nth_error l i) eqn:E; cbn; intros H; inversion H.
  subst. eapply nth_error_In. exact E.
Qed.

(** One step of a run whose outcome is known to be a returned value: name
    the run of the first action, and drop the case where it raises. *)
Ltac step_in H :=
  match type of H with
  | outcome (bind ?m ?k ?s) = _ =>
      let o := fresh "o" in
      let s' := fresh "s" in
      let ev := fresh "ev" in
      let E := fresh "E" in
      destruct (m s) as [o s' ev] eqn:E;
      destruct o as [?a|?x];
      [ rewrite (bind_run m k s s' _ ev E) in H
      | rewrite (bind_raise m k s s' _ ev E) in H; discriminate H ];
      unfold prepend in H; cbn [outcome] in H; cbv beta in H
  end.

Lemma item_nth_inv (l : list Z) (i : nat) (s s' : Bus) (b : Z) (ev : list Event) :
  item l i s = mkRun (Ret b) s' ev -> nth_error l i = Some b.
Proof.
  unfold item. destruct (nth_error l i); cbn; intros H; inversion H.
  reflexivity.
Qed.

Lemma temperature_of_minus_one (raw : Z) :
  (MAX30102.temperature_of raw == -1)%Q -> raw = 262144.
Proof.
  unfold MAX30102.temperature_of, Qeq. cbn. lia.
Qed.

Lemma getECO2ETVOC_pairing (wire : nat -> Reply) (s : Bus) (e t : Z) :
  Forall byte (reply_data (wire (txn s))) ->
  outcome (CCS811.getECO2ETVOC wire s) = Ret (e, t) ->
  (e = -1 <-> t = -1).
Proof.
  intros HB H. unfold CCS811.getECO2ETVOC, CCS811.getECO2ETVOC_body in H.
  step_in H.
  assert (Ha : a = reply_data (wire (txn s))) by (inversion E; reflexivity).
  subst a. clear E.
  step_in H.
  destruct (a =? 0); [|inversion H; tauto].
  do 3 step_in H.
  destruct a2; [|inversion H; tauto].
  do 7 step_in H.
  repeat match goal with
         | E : item _ _ _ = mkRun (Ret ?b) _ _ |- _ =>
             apply item_ret in E;
             apply (proj1 (Forall_forall _ _) HB) in E; unfold byte in E
         end.
  match goal with
  | H : outcome ((if ?c then _ else _) _) = _ |- _ => destruct c
  end.
  - step_in H. inversion H. tauto.
  - rewrite !shiftl_8 in H. unfold ret in H. cbn [outcome] in H.
    match type of H with
    | Ret (?x, ?y) = _ =>
        remember x as eCO2 eqn:He; remember y as TVOC eqn:Ht
    end.
    injection H as <- <-. lia.
Qed.

Ltac case_in H :=
  match type of H with
  | outcome ((if ?c then _ else _) _) = _ => destruct c eqn:?
  end.

Lemma getHumidityTemperature_pairing
    (wire : nat -> Reply) (self : MAX30102.Self) (s : Bus) (h t : Q) :
  outcome (MAX30102.getHumidityTemperature wire self s) = Ret (h, t) ->
  (h = (-1)%Q /\ t = (-1)%Q) \/
  (exists d1 d2 d3 d4 d5 : Z,
      h = MAX30102.humidity_of (MAX30102.humidity_data d1 d2 d3)
      /\ t = MAX30102.temperature_of (MAX30102.temperature_data d3 d4 d5)
      /\ MAX30102.fake h t = false).
Proof.
  intros H.
  unfold MAX30102.getHumidityTemperature,
    MAX30102.getHumidityTemperature_body in H.
  do 5 step_in H.
  case_in H; [|left; inversion H; split; reflexivity].
  do 2 step_in H.
  case_in H; [|left; inversion H; split; reflexivity].
  do 6 step_in H.
  cbv zeta in H.
  case_in H.
  - step_in H. step_in H.
    match goal with
    | E : MAX30102.softReset _ = _ |- _ => discriminate E
    end.
  - right. unfold ret in H. cbn [outcome] in H.
    match type of H with
    | Ret (?x, ?y) = _ =>
        remember x as hum eqn:Hh; remember y as tem eqn:Htm
    end.
    injection H as <- <-.
    repeat match goal with
           | E : item _ _ _ = mkRun (Ret _) _ _ |- _ =>
               apply item_nth_inv in E
           end.
    match goal with
    | H1 : nth_error ?l 3%nat = Some ?x, H2 : nth_error ?l 3%nat = Some ?y
      |- _ => assert (y = x) by congruence; subst y
    end.
    subst hum tem. do 5 eexists.
    split; [reflexivity|]. split; [reflexivity|]. assumption.
Qed.

(** The first six elements of a list, from its items. *)
Lemma nth_error_six (l : list Z) (a0 a1 a2 a3 a4 a5 : Z) :
  nth_error l 0 = Some a0 -> nth_error l 1 = Some a1 ->
  nth_error l 2 = Some a2 -> nth_error l 3 = Some a3 ->
  nth_error l 4 = Some a4 -> nth_error l 5 = Some a5 ->
  exists rest : list Z, l = a0 :: a1 :: a2 :: a3 :: a4 :: a5 :: rest.
Proof.
  intros H0 H1 H2 H3 H4 H5.
  do 6 (destruct l as [|? l]; [discriminate|]).
  cbn in *. exists l. congruence.
Qed.

Lemma checkStatus_true
    (wire : nat -> Reply) (self : MAX30102.Self) (status : Z)
    (s s' : Bus) (ev : list Event) :
  MAX30102.checkStatus wire self status s = mkRun (Ret true) s' ev ->
  Z.testbit status 7 = false /\ Z.testbit status 3 = true.
Proof.
  intros H. apply (f_equal outcome) in H. cbn [outcome] in H. revert H.
  unfold MAX30102.checkStatus, getBit, MAX30102.initialize.
  destruct (Z.testbit status 7); cbn [Z.eqb Pos.eqb].
  - intros H. discriminate H.
  - destruct (Z.testbit status 3); cbn [Z.eqb].
    + intros _. split; reflexivity.
    + destruct (MAX30102._INIT_CMD_LIST self); intros H; discriminate H.
Qed.

(** Where a returned pair comes from: the sentinel, or the conversion of
    bytes 1 to 5 of a successful read whose status byte is valid. *)
Lemma getHumidityTemperature_returned
    (wire : nat -> Reply) (self : MAX30102.Self) (s : Bus) (h t : Q) :
  outcome (MAX30102.getHumidityTemperature wire self s) = Ret (h, t) ->
  (h = (-1)%Q /\ t = (-1)%Q) \/
  (exists (status d1 d2 d3 d4 d5 : Z) (rest : list Z),
      wire (S (txn s)) = mkReply (status :: d1 :: d2 :: d3 :: d4 :: d5 :: rest) 0
      /\ Z.testbit status 7 = false /\ Z.testbit status 3 = true
      /\ h = MAX30102.humidity_of (MAX30102.humidity_data d1 d2 d3)
      /\ t = MAX30102.temperature_of (MAX30102.temperature_data d3 d4 d5)
      /\ MAX30102.fake h t = false).
Proof.
  intros H.
  destruct (MAX30102._TRIG_MEAS_LIST self) as [trig|] eqn:Ht.
  2:{ exfalso. revert H.
      unfold MAX30102.getHumidityTemperature,
        MAX30102.getHumidityTemperature_body.
      rewrite Ht. intros H. discriminate H. }
  destruct (wire (S (txn s))) as [payload code] eqn:Hw.
  destruct (Z.eq_dec code 0) as [->|Nc].
  2:{ left. unfold MAX30102.getHumidityTemperature in H.
      rewrite (getHumidityTemperature_body_failed wire self _ _ trig s Ht)
        in H by (rewrite Hw; exact Nc).
      cbn [outcome] in H. inversion H. split; reflexivity. }
  unfold MAX30102.getHumidityTemperature,
    MAX30102.getHumidityTemperature_body in H.
  rewrite Ht in H.
  erewrite bind_run in H by reflexivity. cbv beta in H.
  erewrite bind_run in H by apply i2c_write_run. cbv beta in H.
  erewrite bind_run in H by reflexivity. cbv beta in H.
  erewrite bind_run in H by apply i2c_read_run. cbv beta in H.
  cbn [txn] in H. rewrite Hw in H. cbn [reply_data reply_code] in H.
  erewrite bind_run in H by reflexivity. cbv beta in H.
  cbn [status_code] in H. change (0 =? 0) with true in H. cbv iota in H.
  unfold prepend in H. cbn [outcome] in H.
  do 2 step_in H.
  match goal with
  | E : MAX30102.checkStatus _ _ _ _ = mkRun (Ret ?ok) _ _ |- _ =>
      destruct ok; [apply checkStatus_true in E; destruct E as [H7 H3]|]
  end.
  2:{ left. inversion H. split; reflexivity. }
  do 6 step_in H.
  cbv zeta in H.
  case_in H.
  - step_in H. step_in H.
    match goal with
    | E : MAX30102.softReset _ = _ |- _ => discriminate E
    end.
  - right. unfold ret in H. cbn [outcome] in H.
    match type of H with
    | Ret (?x, ?y) = _ =>
        remember x as hum eqn:Hh; remember y as tem eqn:Htm
    end.
    injection H as <- <-.
    repeat match goal with
           | E : item _ _ _ = mkRun (Ret _) _ _ |- _ =>
               apply item_nth_inv in E
           end.
    match goal with
    | H1 : nth_error ?l 3%nat = Some ?x, H2 : nth_error ?l 3%nat = Some ?y
      |- _ => assert (y = x) by congruence; subst y
    end.
    match goal with
    | E0 : nth_error payload 0 = Some ?a0, E1 : nth_error payload 1 = Some ?a1,
      E2 : nth_error payload 2 = Some ?a2, E3 : nth_error payload 3 = Some ?a3,
      E4 : nth_error payload 4 = Some ?a4, E5 : nth_error payload 5 = Some ?a5
      |- _ =>
        destruct (nth_error_six payload a0 a1 a2 a3 a4 a5 E0 E1 E2 E3 E4 E5)
          as [rest Hp];
        exists a0, a1, a2, a3, a4, a5, rest
    end.
    subst hum tem payload.
    split; [reflexivity|]. split; [exact H7|]. split; [exact H3|].
    split; [reflexivity|]. split; [reflexivity|]. assumption.
Qed.

(** A valid reading within the plausible ranges, whatever follows its first
    six bytes. *)
Lemma getHumidityTemperature_plausible
    (wire : nat -> Reply) (self : MAX30102.Self) (trig : list Z) (s : Bus)
    (status d1 d2 d3 d4 d5 : Z) (rest : list Z) :
  MAX30102._TRIG_MEAS_LIST self = Some trig ->
  wire (S (txn s)) = mkReply (status :: d1 :: d2 :: d3 :: d4 :: d5 :: rest) 0 ->
  Z.testbit status 7 = false -> Z.testbit status 3 = true ->
  MAX30102.fake (MAX30102.humidity_of (MAX30102.humidity_data d1 d2 d3))
    (MAX30102.temperature_of (MAX30102.temperature_data d3 d4 d5)) = false ->
  MAX30102.getHumidityTemperature wire self s =
  mkRun (Ret (MAX30102.humidity_of (MAX30102.humidity_data d1 d2 d3),
              MAX30102.temperature_of (MAX30102.temperature_data d3 d4 d5)))
    (mkBus 0 (S (S (txn s)))) [Write trig; Sleep; Read 7].
Proof.
  intros Ht Hw H7 H3 Hf.
  unfold MAX30102.getHumidityTemperature, MAX30102.getHumidityTemperature_body.
  rewrite Ht.
  erewrite bind_run by reflexivity. cbv beta.
  erewrite bind_run by apply i2c_write_run. cbv beta.
  erewrite bind_run by reflexivity. cbv beta.
  erewrite bind_run by apply i2c_read_run. cbv beta.
  cbn [txn]. rewrite Hw. cbn [reply_data reply_code].
  erewrite bind_run by reflexivity. cbv beta. cbn [status_code].
  change (0 =? 0) with true. cbv iota.
  erewrite bind_run by reflexivity. cbv beta.
  erewrite bind_run by (apply checkStatus_valid; assumption).
  cbv beta. cbv iota.
  rewrite !prepend_nil, !prepend_prepend. cbn [app].
  do 6 (erewrite bind_run by reflexivity; cbv beta).
  rewrite !prepend_nil. cbv zeta. rewrite Hf.
  unfold prepend, ret. cbn [outcome final emitted app]. reflexivity.
Qed.

Lemma humidity_of_range (hd : Z) :
  (0 <= MAX30102.humidity_of hd /\ MAX30102.humidity_of hd <= 100)%Q
  <-> 0 <= hd <= 1048576.
Proof.
  unfold MAX30102.humidity_of, Qle. cbn. lia.
Qed.

Lemma fake_at_minus_one (hd : Z) :
  0 <= hd <= 1048576 ->
  MAX30102.fake (MAX30102.humidity_of hd) (MAX30102.temperature_of 262144)
  = false.
Proof.
  intros Hh. apply humidity_of_range in Hh. destruct Hh as [H0 H1].
  destruct (MAX30102.fake _ _) eqn:E; [|reflexivity].
  apply fake_true in E. exfalso.
  destruct E as [E|[E|[E|E]]].
  - discriminate E.
  - discriminate E.
  - exact (Qlt_not_le _ _ E H0).
  - exact (Qlt_not_le _ _ E H1).
Qed.

(** C8 (as amended).  A pair returned by [getECO2ETVOC] from bytes has both
    components equal to -1 or neither.  A pair returned by
    [getHumidityTemperature] with humidity -1 has temperature -1; it has
    temperature -1 next to another humidity exactly when the read succeeded,
    the status byte of the reply is valid, the temperature field of the reply
    is 2^18 and its humidity field lies in [0, 2^20]: the reading of -1
    degree, which is returned as measured. *)
Theorem returned_pairs_sentinel :
  (forall (wire : nat -> Reply) (s : Bus) (e t : Z),
      Forall byte (reply_data (wire (txn s))) ->
      outcome (CCS811.getECO2ETVOC wire s) = Ret (e, t) ->
      (e = -1 <-> t = -1)) /\
  (forall (wire : nat -> Reply) (self : MAX30102.Self) (s : Bus) (h t : Q),
      outcome (MAX30102.getHumidityTemperature wire self s) = Ret (h, t) ->
      ((h == -1)%Q -> (t == -1)%Q) /\
      (((t == -1)%Q /\ ~ (h == -1)%Q) <->
       exists (status d1 d2 d3 d4 d5 : Z) (rest : list Z),
         wire (S (txn s))
         = mkReply (status :: d1 :: d2 :: d3 :: d4 :: d5 :: rest) 0
         /\ Z.testbit status 7 = false /\ Z.testbit status 3 = true
         /\ MAX30102.temperature_data d3 d4 d5 = 2 ^ 18
         /\ 0 <= MAX30102.humidity_data d1 d2 d3 <= 2 ^ 20)).
Proof.
  split.
  - exact getECO2ETVOC_pairing.
  - intros wire self s h t H.
    pose proof (getHumidityTemperature_returned wire self s h t H) as R.
    split; [|split].
    + destruct R as [[Hh Ht] | (st & d1 & d2 & d3 & d4 & d5 & rest & _ & _ & _
                                 & Hh & Ht & Hf)].
      * subst h t. intros _. reflexivity.
      * apply fake_false in Hf. destruct Hf as (_ & _ & H0 & _).
        intros E. exfalso. rewrite E in H0.
        apply (Qlt_not_le (-1) 0); [reflexivity | exact H0].
    + intros [Et Nh].
      destruct R as [[Hh Ht] | (st & d1 & d2 & d3 & d4 & d5 & rest & Hw & H7
                                 & H3 & Hh & Ht & Hf)].
      * exfalso. apply Nh. rewrite Hh. reflexivity.
      * exists st, d1, d2, d3, d4, d5, rest.
        split; [exact Hw|]. split; [exact H7|]. split; [exact H3|].
        split.
        -- rewrite Ht in Et. apply temperature_of_minus_one in Et. exact Et.
        -- apply fake_false in Hf. destruct Hf as (_ & _ & H0 & H100).
           rewrite Hh in H0, H100.
           apply humidity_of_range. split; assumption.
    + intros (st & d1 & d2 & d3 & d4 & d5 & rest & Hw & H7 & H3 & Etd & Hhd).
      destruct (MAX30102._TRIG_MEAS_LIST self) as [trig|] eqn:Ht.
      2:{ exfalso. revert H.
          unfold MAX30102.getHumidityTemperature,
            MAX30102.getHumidityTemperature_body.
          rewrite Ht. intros H. discriminate H. }
      assert (Hf : MAX30102.fake
                     (MAX30102.humidity_of (MAX30102.humidity_data d1 d2 d3))
                     (MAX30102.temperature_of
                        (MAX30102.temperature_data d3 d4 d5)) = false).
      { rewrite Etd. apply fake_at_minus_one. exact Hhd. }
      rewrite (getHumidityTemperature_plausible wire self trig s
                 st d1 d2 d3 d4 d5 rest Ht Hw H7 H3 Hf) in H.
      cbn [outcome] in H. rewrite Etd in H.
      remember (MAX30102.humidity_data d1 d2 d3) as hd eqn:Ehd.
      injection H as <- <-.
      split; [reflexivity|].
      apply humidity_of_range in Hhd. destruct Hhd as [H0 _].
      intros E. rewrite E in H0.
      apply (Qlt_not_le (-1) 0); [reflexivity | exact H0].
Qed.

Lemma returned_pairs_sentinel_witness :
  (-1 = -1 <-> -1 = -1)
  /\ (((MAX30102.humidity_of 524288 == -1)%Q ->
       (MAX30102.temperature_of 262144 == -1)%Q)
      /\ (((MAX30102.temperature_of 262144 == -1)%Q
           /\ ~ (MAX30102.humidity_of 524288 == -1)%Q) <->
          exists (status d1 d2 d3 d4 d5 : Z) (rest : list Z),
            steady [0x08; 0x80; 0x00; 0x04; 0x00; 0x00; 0x00] 0 1%nat
            = mkReply (status :: d1 :: d2 :: d3 :: d4 :: d5 :: rest) 0
            /\ Z.testbit status 7 = false /\ Z.testbit status 3 = true
            /\ MAX30102.temperature_data d3 d4 d5 = 2 ^ 18
            /\ 0 <= MAX30102.humidity_data d1 d2 d3 <= 2 ^ 20)).
Proof.
  destruct returned_pairs_sentinel as [H1 H2]. split.
  - apply (H1 (steady [0x01; 0x02; 0x80; 0x01; 0x98; 0; 0; 0] 0) idle).
    + repeat constructor; unfold byte; lia.
    + reflexivity.
  - apply (H2 (steady [0x08; 0x80; 0x00; 0x04; 0x00; 0x00; 0x00] 0)
             assigned idle).
    reflexivity.
Defined.

(** C8 as stated fails: with raw temperature 2^18 the converted temperature
    is -1 and the returned pair is (50, -1), a valid humidity next to a
    temperature equal to the sentinel. *)
Lemma getHumidityTemperature_minus_one_degree :
  exists h t : Q,
    outcome (MAX30102.getHumidityTemperature
               (steady [0x08; 0x80; 0x00; 0x04; 0x00; 0x00; 0x00] 0)
               assigned idle)
    = Ret (h, t)
    /\ (h == 50)%Q /\ (t == -1)%Q /\ ~ (h == -1)%Q.
Proof.
  eexists. eexists. split; [reflexivity|].
  repeat split. intros E. apply Qeq_bool_iff in E. discriminate E.
Qed.

(** ** The environment data of the gas sensor *)

(** *** Powers of two *)

Lemma pow2_pos (e : Z) : (0 < 2 ^ e)%Q.
Proof. apply Qpower_0_lt. reflexivity. Qed.

Lemma pow2_add (a b : Z) : (2 ^ (a + b) == 2 ^ a * 2 ^ b)%Q.
Proof. apply Qpower_plus. discriminate. Qed.

Lemma pow2_le (a b : Z) : a <= b -> (2 ^ a <= 2 ^ b)%Q.
Proof. intros H. apply Qpower_le_compat_l; [exact H | discriminate]. Qed.

Lemma pow2_lt_inv (a b : Z) : (2 ^ a < 2 ^ b)%Q -> a < b.
Proof. intros H. apply (Qpower_lt_compat_l_inv 2); [exact H | reflexivity]. Qed.

Lemma pow2_Z (n : Z) : 0 <= n -> (2 ^ n == inject_Z (2 ^ n))%Q.
Proof. intros H. rewrite Zpower_Qpower by exact H. reflexivity. Qed.

Lemma pow2_div (x : Q) (a b : Z) :
  (x * 2 ^ a / 2 ^ b == x * 2 ^ (a - b))%Q.
Proof.
  rewrite (Qpower_minus 2 a b) by discriminate.
  field. apply Qpower_not_0. discriminate.
Qed.

(** *** Rounding to the nearest integer *)

Lemma round_half_even_Z (n : Z) : round_half_even (inject_Z n) = n.
Proof.
  unfold round_half_even. rewrite Qfloor_Z.
  assert (E : (inject_Z n - inject_Z n ?= 1 # 2)%Q = Lt).
  { rewrite <- Qlt_alt. lra. }
  rewrite E. reflexivity.
Qed.

Lemma round_half_even_comp (x y : Q) :
  (x == y)%Q -> round_half_even x = round_half_even y.
Proof.
  intros E. unfold round_half_even.
  rewrite (Qfloor_comp _ _ E).
  assert (C : (x - inject_Z (Qfloor y) ?= 1 # 2)%Q
              = (y - inject_Z (Qfloor y) ?= 1 # 2)%Q).
  { apply Qcompare_comp; [rewrite E; reflexivity | reflexivity]. }
  rewrite C. reflexivity.
Qed.

Lemma round_half_even_bounds (x : Q) :
  Qfloor x <= round_half_even x <= Qfloor x + 1.
Proof.
  unfold round_half_even.
  destruct (x - inject_Z (Qfloor x) ?= 1 # 2)%Q; [destruct (Z.even _)| |]; lia.
Qed.

Lemma round_half_even_monotone (x y : Q) :
  (x <= y)%Q -> round_half_even x <= round_half_even y.
Proof.
  intros H. pose proof (Qfloor_resp_le _ _ H) as F.
  pose proof (round_half_even_bounds x) as Bx.
  pose proof (round_half_even_bounds y) as By.
  destruct (Z.eq_dec (Qfloor x) (Qfloor y)) as [E|N]; [|lia].
  unfold round_half_even. rewrite E.
  destruct (x - inject_Z (Qfloor y) ?= 1 # 2)%Q eqn:Cx;
    destruct (y - inject_Z (Qfloor y) ?= 1 # 2)%Q eqn:Cy;
    try (destruct (Z.even (Qfloor y)); lia); try lia; exfalso.
  - apply Qeq_alt in Cx. apply Qlt_alt in Cy. lra.
  - apply Qgt_alt in Cx. apply Qeq_alt in Cy. lra.
  - apply Qgt_alt in Cx. apply Qlt_alt in Cy. lra.
Qed.

(** *** The binade of a number *)

Lemma Qabs_scaled (n : Z) (d : positive) :
  (Qabs (n # d) * inject_Z (Z.pos d) == inject_Z (Z.abs n))%Q.
Proof.
  unfold Qabs, Qeq, Qmult, inject_Z. cbn. lia.
Qed.

Lemma ilog2_spec (x : Q) :
  ~ (x == 0)%Q -> (2 ^ ilog2 x <= Qabs x /\ Qabs x < 2 ^ (ilog2 x + 1))%Q.
Proof.
  intros Hx.
  assert (Ha : (0 < Qabs x)%Q).
  { destruct (Qlt_le_dec 0 (Qabs x)) as [L|L]; [exact L|].
    exfalso. apply Hx. pose proof (Qabs_nonneg x) as P.
    assert (Z0 : (Qabs x == 0)%Q) by lra.
    revert Z0. apply Qabs_case; intros; lra. }
  destruct x as [n d].
  assert (Hn : 0 < Z.abs n).
  { destruct (Z.eq_dec n 0) as [->|N]; [|lia].
    exfalso. apply Hx. reflexivity. }
  pose proof (Z.log2_spec (Z.abs n) Hn) as [Ln Un].
  pose proof (Z.log2_spec (Z.pos d) (Pos2Z.is_pos d)) as [Ld Ud].
  pose proof (Z.log2_nonneg (Z.abs n)) as Nn.
  pose proof (Z.log2_nonneg (Z.pos d)) as Nd.
  pose proof (Qabs_scaled n d) as S.
  set (ln := Z.log2 (Z.abs n)) in *. set (ld := Z.log2 (Z.pos d)) in *.
  set (a := Qabs (n # d)) in *.
  rewrite Zle_Qle in Ln, Ld. rewrite Zlt_Qlt in Un, Ud.
  rewrite <- !pow2_Z in Ln, Ld, Un, Ud by lia.
  assert (Up : (a < 2 ^ (ln - ld + 1))%Q).
  { apply (Qmult_lt_r _ _ (2 ^ ld)); [apply pow2_pos|].
    rewrite <- pow2_add. replace (ln - ld + 1 + ld) with (Z.succ ln) by lia.
    apply Qle_lt_trans with (a * inject_Z (Z.pos d))%Q.
    - apply Qmult_le_l; [exact Ha | exact Ld].
    - rewrite S. exact Un. }
  assert (Lo : (2 ^ (ln - ld - 1) < a)%Q).
  { apply (Qmult_lt_r _ _ (2 ^ Z.succ ld)); [apply pow2_pos|].
    rewrite <- pow2_add. replace (ln - ld - 1 + Z.succ ld) with ln by lia.
    apply Qle_lt_trans with (a * inject_Z (Z.pos d))%Q.
    - rewrite S. exact Ln.
    - apply Qmult_lt_l; [exact Ha | exact Ud]. }
  unfold ilog2. cbn [Qnum Qden]. fold ln ld. fold a.
  destruct (Qle_bool (2 ^ (ln - ld)) a) eqn:B.
  - apply Qle_bool_iff in B. split; [exact B | exact Up].
  - split; [apply Qlt_le_weak; exact Lo|].
    replace (ln - ld - 1 + 1) with (ln - ld) by lia.
    apply Qnot_le_lt. intros C. apply Qle_bool_iff in C. congruence.
Qed.

(** *** Rounding to the nearest float *)

Lemma round_double_zero (x : Q) : (x == 0)%Q -> (round_double x == 0)%Q.
Proof.
  intros E. unfold round_double.
  assert (Z0 : (x / 2 ^ ulp_exponent x == inject_Z 0)%Q).
  { set (p := (2 ^ ulp_exponent x)%Q). rewrite E. unfold Qdiv.
    rewrite Qmult_0_l. reflexivity. }
  rewrite (round_half_even_comp _ _ Z0), round_half_even_Z.
  apply Qmult_0_l.
Qed.

(** A bound on the ulp grid of [x] that holds for [x] holds for its
    rounding. *)
Lemma round_double_le_grid (x : Q) (k : Z) :
  (x <= inject_Z k * 2 ^ ulp_exponent x)%Q ->
  (round_double x <= inject_Z k * 2 ^ ulp_exponent x)%Q.
Proof.
  intros H. unfold round_double.
  apply Qmult_le_compat_r; [|apply Qlt_le_weak, pow2_pos].
  rewrite <- Zle_Qle. rewrite <- (round_half_even_Z k).
  apply round_half_even_monotone.
  apply Qle_shift_div_r; [apply pow2_pos | exact H].
Qed.

Lemma round_double_ge_grid (x : Q) (k : Z) :
  (inject_Z k * 2 ^ ulp_exponent x <= x)%Q ->
  (inject_Z k * 2 ^ ulp_exponent x <= round_double x)%Q.
Proof.
  intros H. unfold round_double.
  apply Qmult_le_compat_r; [|apply Qlt_le_weak, pow2_pos].
  rewrite <- Zle_Qle. rewrite <- (round_half_even_Z k) at 1.
  apply round_half_even_monotone.
  apply Qle_shift_div_l; [apply pow2_pos | exact H].
Qed.

Lemma round_double_nonneg (x : Q) : (0 <= x)%Q -> (0 <= round_double x)%Q.
Proof.
  intros H.
  assert (A : (inject_Z 0 * 2 ^ ulp_exponent x <= round_double x)%Q).
  { apply round_double_ge_grid. rewrite Qmult_0_l. exact H. }
  rewrite Qmult_0_l in A. exact A.
Qed.

(** Every double is its own rounding. *)
Lemma round_double_exact (x : Q) : double x -> (round_double x == x)%Q.
Proof.
  intros (m & e & Hm & He & Ex).
  destruct (Z.eq_dec m 0) as [->|Nm].
  { assert (E0 : (x == 0)%Q) by (rewrite Ex; apply Qmult_0_l).
    rewrite (round_double_zero x E0), E0. reflexivity. }
  assert (Hx : ~ (x == 0)%Q).
  { rewrite Ex. intros E. apply Qmult_integral in E. destruct E as [E|E].
    - apply Nm. unfold Qeq in E. cbn in E. lia.
    - revert E. apply Qpower_not_0. discriminate. }
  destruct (ilog2_spec x Hx) as [L U].
  assert (Ea : (Qabs x == inject_Z (Z.abs m) * 2 ^ e)%Q).
  { rewrite Ex, Qabs_Qmult.
    rewrite (Qabs_pos (2 ^ e)) by (apply Qlt_le_weak, pow2_pos).
    apply Qmult_comp; [|reflexivity].
    unfold inject_Z. rewrite <- Zabs_Qabs. reflexivity. }
  assert (B : ilog2 x < 53 + e).
  { apply pow2_lt_inv. eapply Qle_lt_trans; [exact L|].
    rewrite Ea, pow2_add. apply Qmult_lt_r; [apply pow2_pos|].
    rewrite pow2_Z by lia. rewrite <- Zlt_Qlt. exact Hm. }
  assert (Hu : ulp_exponent x <= e) by (unfold ulp_exponent; lia).
  unfold round_double.
  set (u := ulp_exponent x) in *.
  assert (D : (x / 2 ^ u == inject_Z (m * 2 ^ (e - u)))%Q).
  { rewrite Ex, pow2_div, inject_Z_mult, <- pow2_Z by lia. reflexivity. }
  rewrite (round_half_even_comp _ _ D), round_half_even_Z.
  rewrite Ex, inject_Z_mult, <- pow2_Z by lia.
  rewrite <- Qmult_assoc, <- pow2_add.
  replace (e - u + u) with e by lia. reflexivity.
Qed.

(** Rounding is monotone (on the non-negative numbers). *)
Lemma round_double_monotone_nonneg (x y : Q) :
  (0 <= x)%Q -> (x <= y)%Q -> (round_double x <= round_double y)%Q.
Proof.
  intros H0 H.
  destruct (Qeq_dec x 0) as [E|Hx].
  { rewrite (round_double_zero x E). apply round_double_nonneg. lra. }
  assert (Px : (0 < x)%Q).
  { destruct (Qlt_le_dec 0 x) as [L|L]; [exact L|].
    exfalso. apply Hx. lra. }
  assert (Hy : ~ (y == 0)%Q) by (intros E; lra).
  destruct (ilog2_spec x Hx) as [Lx Ux].
  destruct (ilog2_spec y Hy) as [Ly Uy].
  rewrite Qabs_pos in Lx, Ux by lra.
  rewrite Qabs_pos in Ly, Uy by lra.
  assert (B : ilog2 x < ilog2 y + 1).
  { apply pow2_lt_inv. eapply Qle_lt_trans; [exact Lx|].
    eapply Qle_lt_trans; [exact H | exact Uy]. }
  destruct (Z.eq_dec (ulp_exponent x) (ulp_exponent y)) as [Eu|Nu].
  - unfold round_double. rewrite Eu.
    apply Qmult_le_compat_r; [|apply Qlt_le_weak, pow2_pos].
    rewrite <- Zle_Qle. apply round_half_even_monotone.
    apply Qmult_le_compat_r; [exact H|].
    apply Qlt_le_weak, Qinv_lt_0_compat, pow2_pos.
  - assert (Hb : ulp_exponent x + 53 <= ilog2 y
                 /\ ulp_exponent y = ilog2 y - 52
                 /\ ilog2 x + 1 <= ulp_exponent x + 53)
      by (unfold ulp_exponent in *; lia).
    destruct Hb as (Hb1 & Hb2 & Hb3).
    apply Qle_trans with (2 ^ ilog2 y)%Q.
    + apply Qle_trans with (inject_Z (2 ^ 53) * 2 ^ ulp_exponent x)%Q.
      * apply round_double_le_grid.
        rewrite <- pow2_Z, <- pow2_add by lia.
        apply Qlt_le_weak. eapply Qlt_le_trans; [exact Ux|].
        apply pow2_le. lia.
      * rewrite <- pow2_Z, <- pow2_add by lia. apply pow2_le. lia.
    + apply Qle_trans with (inject_Z (2 ^ 52) * 2 ^ ulp_exponent y)%Q.
      * rewrite <- pow2_Z, <- pow2_add by lia. apply pow2_le. lia.
      * apply round_double_ge_grid.
        rewrite <- pow2_Z, <- pow2_add by lia.
        eapply Qle_trans; [|exact Ly]. apply pow2_le. lia.
Qed.

Lemma round_double_comp_nonneg (x y : Q) :
  (0 <= x)%Q -> (x == y)%Q -> (round_double x == round_double y)%Q.
Proof.
  intros H E. apply Qle_antisym; apply round_double_monotone_nonneg; lra.
Qed.

Lemma double_comp (x y : Q) : (x == y)%Q -> double x -> double y.
Proof.
  intros E (m & e & Hm & He & Ex). exists m, e.
  split; [exact Hm|]. split; [exact He|]. rewrite <- E. exact Ex.
Qed.

(** The rounding of a number in [0, 2^1000) is a double. *)
Lemma round_double_double (x : Q) :
  (0 <= x)%Q -> (x < 2 ^ 1000)%Q -> double (round_double x).
Proof.
  intros H0 H.
  destruct (Qeq_dec x 0) as [E|Hx].
  { exists 0, 0. split; [reflexivity|]. split; [lia|].
    rewrite (round_double_zero x E). reflexivity. }
  destruct (ilog2_spec x Hx) as [L U].
  rewrite Qabs_pos in L, U by exact H0.
  assert (B : ilog2 x < 1000).
  { apply pow2_lt_inv. eapply Qle_lt_trans; eassumption. }
  set (u := ulp_exponent x).
  assert (Hu : -1074 <= u <= 947 /\ ilog2 x + 1 <= u + 53)
    by (unfold u, ulp_exponent; lia).
  destruct Hu as [Hu Hb].
  assert (K0 : (inject_Z 0 * 2 ^ u <= round_double x)%Q).
  { apply round_double_ge_grid. rewrite Qmult_0_l. exact H0. }
  assert (K1 : (round_double x <= inject_Z (2 ^ 53) * 2 ^ u)%Q).
  { apply round_double_le_grid. fold u.
    rewrite <- pow2_Z, <- pow2_add by lia.
    apply Qlt_le_weak. eapply Qlt_le_trans; [exact U|]. apply pow2_le. lia. }
  unfold round_double in *. fold u in K0, K1 |- *.
  set (k := round_half_even (x / 2 ^ u)) in *.
  apply Qmult_le_r in K0; [|apply pow2_pos].
  apply Qmult_le_r in K1; [|apply pow2_pos].
  rewrite <- Zle_Qle in K0, K1.
  destruct (Z.eq_dec k (2 ^ 53)) as [->|Nk].
  - exists (2 ^ 52), (u + 1). split; [reflexivity|]. split; [lia|].
    rewrite pow2_add. change (2 ^ 53) with (2 ^ 52 * 2). rewrite inject_Z_mult.
    change ((2:Q) ^ 1)%Q with (inject_Z 2). ring.
  - exists k, u. split; [lia|]. split; [lia|]. reflexivity.
Qed.

(** The rounding to an integer is a nearest integer. *)
Lemma round_half_even_nearest (x : Q) :
  (round_half_even x = Qfloor x /\ (x - inject_Z (Qfloor x) <= 1 # 2)%Q)
  \/ (round_half_even x = Qfloor x + 1
      /\ (1 # 2 <= x - inject_Z (Qfloor x))%Q).
Proof.
  unfold round_half_even.
  destruct (x - inject_Z (Qfloor x) ?= 1 # 2)%Q eqn:C.
  - apply Qeq_alt in C. destruct (Z.even (Qfloor x)).
    + left. split; [reflexivity | lra].
    + right. split; [reflexivity | lra].
  - apply Qlt_alt in C. left. split; [reflexivity | lra].
  - apply Qgt_alt in C. right. split; [reflexivity | lra].
Qed.

(** Between two neighbours of the grid of [x] there is no double. *)
Lemma double_on_grid (x d : Q) :
  (0 < x)%Q -> double d ->
  (inject_Z (Qfloor (x / 2 ^ ulp_exponent x)) * 2 ^ ulp_exponent x < d)%Q ->
  exists n : Z, (d == inject_Z n * 2 ^ ulp_exponent x)%Q.
Proof.
  intros Px (m & e & Hm & He & Ed) Hg.
  assert (Hx : ~ (x == 0)%Q) by (intros E; lra).
  destruct (ilog2_spec x Hx) as [L U].
  rewrite Qabs_pos in L, U by lra.
  set (u := ulp_exponent x) in *.
  assert (Hu : u <= e).
  { destruct (Z_le_gt_dec (ilog2 x) (-1022)) as [Sub|Nor].
    - unfold u, ulp_exponent. lia.
    - assert (Eu : ilog2 x = u + 52) by (unfold u, ulp_exponent; lia).
      assert (G : (inject_Z (2 ^ 52) * 2 ^ u
                   <= inject_Z (Qfloor (x / 2 ^ u)) * 2 ^ u)%Q).
      { apply Qmult_le_compat_r; [|apply Qlt_le_weak, pow2_pos].
        rewrite <- Zle_Qle. rewrite <- (Qfloor_Z (2 ^ 52)).
        apply Qfloor_resp_le. apply Qle_shift_div_l; [apply pow2_pos|].
        rewrite <- pow2_Z, <- pow2_add by lia.
        replace (52 + u) with (ilog2 x) by lia. exact L. }
      assert (Pm : 0 < m).
      { destruct (Z_lt_le_dec 0 m) as [P|N]; [exact P|]. exfalso.
        assert (A : (inject_Z m * 2 ^ e <= 0 * 2 ^ e)%Q).
        { apply Qmult_le_compat_r; [|apply Qlt_le_weak, pow2_pos].
          change 0%Q with (inject_Z 0). rewrite <- Zle_Qle. exact N. }
        rewrite Qmult_0_l in A.
        assert (B : (0 < inject_Z (2 ^ 52) * 2 ^ u)%Q).
        { apply Qmult_lt_0_compat; [reflexivity | apply pow2_pos]. }
        rewrite <- Ed in A. lra. }
      assert (Lt : u + 52 < 53 + e).
      { apply pow2_lt_inv.
        apply Qle_lt_trans with (inject_Z (2 ^ 52) * 2 ^ u)%Q.
        - rewrite <- pow2_Z, <- pow2_add by lia.
          apply pow2_le. lia.
        - eapply Qle_lt_trans; [exact G|].
          eapply Qlt_trans; [exact Hg|].
          rewrite Ed, pow2_add. apply Qmult_lt_r; [apply pow2_pos|].
          rewrite pow2_Z by lia. rewrite <- Zlt_Qlt. lia. }
      lia. }
  exists (m * 2 ^ (e - u)).
  rewrite Ed, inject_Z_mult, <- pow2_Z by lia.
  rewrite <- Qmult_assoc, <- pow2_add.
  replace (e - u + u) with e by lia. reflexivity.
Qed.

(** [round_double x] is as close to [x] as any double, for [x >= 0]. *)
Lemma round_double_nearest_nonneg (x d : Q) :
  (0 <= x)%Q -> double d ->
  (Qabs (round_double x - x) <= Qabs (d - x))%Q.
Proof.
  intros H0 Dd.
  destruct (Qeq_dec x 0) as [E|Hx].
  { rewrite (round_double_zero x E), E.
    setoid_replace (0 - 0)%Q with 0%Q by ring. apply Qabs_nonneg. }
  assert (Px : (0 < x)%Q).
  { destruct (Qlt_le_dec 0 x) as [L|L]; [exact L|]. exfalso. apply Hx. lra. }
  pose proof (double_on_grid x d Px Dd) as G.
  unfold round_double in *.
  set (u := ulp_exponent x) in *.
  pose proof (pow2_pos u) as Pu.
  set (p := (2 ^ u)%Q) in *.
  pose proof (Qfloor_le (x / p)) as Fl.
  pose proof (Qlt_floor (x / p)) as Fu.
  rewrite inject_Z_plus in Fu. change (inject_Z 1) with 1%Q in Fu.
  set (f := Qfloor (x / p)) in *.
  assert (Ex : (x == x / p * p)%Q) by (field; lra).
  set (y := (x / p)%Q) in *.
  (* the position of [d] on the grid *)
  assert (Hd : (d <= inject_Z f * p)%Q \/ (inject_Z (f + 1) * p <= d)%Q).
  { destruct (Qlt_le_dec (inject_Z f * p) d) as [L|L]; [|left; exact L].
    right. destruct (G L) as [n En]. rewrite En.
    apply Qmult_le_compat_r; [|lra].
    rewrite <- Zle_Qle.
    rewrite En in L. apply Qmult_lt_r in L; [|exact Pu].
    rewrite <- Zlt_Qlt in L. lia. }
  rewrite inject_Z_plus in Hd. change (inject_Z 1) with 1%Q in Hd.
  assert (Xl : (inject_Z f * p <= x)%Q).
  { rewrite Ex. apply Qmult_le_compat_r; [exact Fl | lra]. }
  assert (Xu : (x <= (inject_Z f + 1) * p)%Q).
  { rewrite Ex at 1. apply Qmult_le_compat_r; [lra | lra]. }
  destruct (round_half_even_nearest y) as [[-> C]|[-> C]]; fold f in C |- *.
  - (* rounded down: x - f p <= p / 2 *)
    assert (Cx : (x - inject_Z f * p <= (1 # 2) * p)%Q).
    { rewrite Ex at 1.
      setoid_replace (y * p - inject_Z f * p)%Q
        with ((y - inject_Z f) * p)%Q by ring.
      apply Qmult_le_compat_r; [exact C | lra]. }
    rewrite (Qabs_neg (inject_Z f * p - x)) by lra.
    destruct Hd as [Hd|Hd].
    + rewrite (Qabs_neg (d - x)) by lra. lra.
    + rewrite (Qabs_pos (d - x)) by lra.
      assert (Eg : ((inject_Z f + 1) * p == inject_Z f * p + p)%Q) by ring.
      rewrite Eg in Hd. lra.
  - (* rounded up: p / 2 <= x - f p *)
    assert (Cx : ((1 # 2) * p <= x - inject_Z f * p)%Q).
    { rewrite Ex at 1.
      setoid_replace (y * p - inject_Z f * p)%Q
        with ((y - inject_Z f) * p)%Q by ring.
      apply Qmult_le_compat_r; [exact C | lra]. }
    rewrite inject_Z_plus. change (inject_Z 1) with 1%Q.
    assert (Eg : ((inject_Z f + 1) * p == inject_Z f * p + p)%Q) by ring.
    rewrite Eg in Xu, Hd |- *.
    rewrite (Qabs_pos (inject_Z f * p + p - x)) by lra.
    destruct Hd as [Hd|Hd].
    + rewrite (Qabs_neg (d - x)) by lra. lra.
    + rewrite (Qabs_pos (d - x)) by lra. lra.
Qed.

(** Rounding commutes with the change of sign, which carries the three
    facts above over to all numbers. *)

Lemma round_half_even_opp (x : Q) :
  round_half_even (- x) = - round_half_even x.
Proof.
  pose proof (Qfloor_le x) as Fl. pose proof (Qlt_floor x) as Fu.
  pose proof (Qfloor_le (- x)) as Gl. pose proof (Qlt_floor (- x)) as Gu.
  rewrite inject_Z_plus in Fu, Gu. change (inject_Z 1) with 1%Q in Fu, Gu.
  unfold round_half_even.
  set (f := Qfloor x) in *. set (g := Qfloor (- x)) in *.
  assert (Hg : g = - f \/ g = - f - 1).
  { assert (A : (inject_Z (- f - 2) < inject_Z g)%Q).
    { unfold Z.sub. rewrite inject_Z_plus, inject_Z_opp.
      change (inject_Z (- (2))) with (-2)%Q. lra. }
    assert (B : (inject_Z g < inject_Z (- f + 1))%Q).
    { rewrite inject_Z_plus, inject_Z_opp. change (inject_Z 1) with 1%Q. lra. }
    rewrite <- Zlt_Qlt in A, B. lia. }
  destruct Hg as [-> | ->].
  - (* x is the integer f *)
    rewrite inject_Z_opp in Gl, Gu |- *.
    assert (Cx : (x - inject_Z f ?= 1 # 2)%Q = Lt)
      by (rewrite <- Qlt_alt; lra).
    assert (Cy : (- x - - inject_Z f ?= 1 # 2)%Q = Lt)
      by (rewrite <- Qlt_alt; lra).
    rewrite Cx, Cy. reflexivity.
  - assert (Eg : inject_Z (- f - 1) = (- inject_Z f - 1)%Q).
    { unfold Z.sub. rewrite inject_Z_plus, inject_Z_opp. reflexivity. }
    rewrite Eg in Gl, Gu |- *.
    destruct (x - inject_Z f ?= 1 # 2)%Q eqn:Cx.
    + apply Qeq_alt in Cx.
      assert (Cy : (- x - (- inject_Z f - 1) ?= 1 # 2)%Q = Eq)
        by (rewrite <- Qeq_alt; lra).
      rewrite Cy.
      replace (- f - 1) with (- (f + 1)) by lia.
      rewrite Z.even_opp, Z.even_add. change (Z.even 1) with false.
      destruct (Z.even f); cbn; lia.
    + apply Qlt_alt in Cx.
      assert (Cy : (- x - (- inject_Z f - 1) ?= 1 # 2)%Q = Gt)
        by (rewrite <- Qgt_alt; lra).
      rewrite Cy. lia.
    + apply Qgt_alt in Cx.
      assert (Cy : (- x - (- inject_Z f - 1) ?= 1 # 2)%Q = Lt)
        by (rewrite <- Qlt_alt; lra).
      rewrite Cy. lia.
Qed.

Lemma ulp_exponent_opp (x : Q) : ulp_exponent (- x) = ulp_exponent x.
Proof.
  unfold ulp_exponent, ilog2. destruct x as [n d]. cbn [Qopp Qnum Qden Qabs].
  rewrite Z.abs_opp. reflexivity.
Qed.

Lemma round_double_opp (x : Q) : (round_double (- x) == - round_double x)%Q.
Proof.
  unfold round_double. rewrite ulp_exponent_opp.
  set (p := (2 ^ ulp_exponent x)%Q).
  assert (E : (- x / p == - (x / p))%Q).
  { unfold Qdiv. ring. }
  rewrite (round_half_even_comp _ _ E), round_half_even_opp, inject_Z_opp.
  ring.
Qed.

Lemma round_double_nonpos (x : Q) : (x <= 0)%Q -> (round_double x <= 0)%Q.
Proof.
  intros H.
  assert (A : (0 <= round_double (- x))%Q) by (apply round_double_nonneg; lra).
  rewrite round_double_opp in A. lra.
Qed.

(** Rounding is monotone. *)
Lemma round_double_monotone (x y : Q) :
  (x <= y)%Q -> (round_double x <= round_double y)%Q.
Proof.
  intros H.
  destruct (Qlt_le_dec x 0) as [Nx|Px].
  - destruct (Qlt_le_dec y 0) as [Ny|Py].
    + assert (A : (round_double (- y) <= round_double (- x))%Q)
        by (apply round_double_monotone_nonneg; lra).
      rewrite !round_double_opp in A. lra.
    + apply Qle_trans with 0%Q.
      * apply round_double_nonpos. lra.
      * apply round_double_nonneg. exact Py.
  - apply round_double_monotone_nonneg; assumption.
Qed.

Lemma round_double_comp (x y : Q) :
  (x == y)%Q -> (round_double x == round_double y)%Q.
Proof.
  intros E. apply Qle_antisym; apply round_double_monotone; lra.
Qed.

Lemma double_opp (d : Q) : double d -> double (- d).
Proof.
  intros (m & e & Hm & He & Ed). exists (- m), e.
  split; [lia|]. split; [exact He|].
  rewrite Ed, inject_Z_opp. ring.
Qed.

(** [round_double x] is as close to [x] as any double. *)
Lemma round_double_nearest (x d : Q) :
  double d -> (Qabs (round_double x - x) <= Qabs (d - x))%Q.
Proof.
  intros Dd.
  destruct (Qlt_le_dec x 0) as [Nx|Px].
  - pose proof (round_double_nearest_nonneg (- x) (- d)
                  ltac:(lra) (double_opp d Dd)) as A.
    rewrite round_double_opp in A.
    assert (E1 : (- round_double x - - x == - (round_double x - x))%Q) by ring.
    assert (E2 : (- d - - x == - (d - x))%Q) by ring.
    rewrite E1, E2, !Qabs_opp in A. exact A.
  - apply round_double_nearest_nonneg; assumption.
Qed.

(** The float written 0.1 is 3602879701896397 / 2^55; 2^53 + 1 lies half
    way between two floats and goes to the even one, 2^53; and 3 * 2^-1075
    lies half way between two subnormal floats and goes to 2^-1073. *)
Example round_double_values :
  (round_double (1 # 10) == 3602879701896397 # 36028797018963968)%Q
  /\ (round_double (2 ^ 53 + 1) == 2 ^ 53)%Q
  /\ (round_double (3 * 2 ^ (-1075)) == 2 ^ (-1073))%Q.
Proof. repeat split; vm_compute; reflexivity. Qed.

(** *** Operations that do not round *)

Lemma inject_Z_sub (x y : Z) : inject_Z (x - y) = (inject_Z x - inject_Z y)%Q.
Proof.
  rewrite <- Z.add_opp_r, inject_Z_plus, inject_Z_opp. reflexivity.
Qed.

Lemma double_Z (n : Z) : Z.abs n < 2 ^ 53 -> double (inject_Z n).
Proof.
  intros H. exists n, 0. split; [exact H|]. split; [lia|].
  change ((2:Q) ^ 0)%Q with 1%Q. rewrite Qmult_1_r. reflexivity.
Qed.

(** Scaling a double by a power of two gives a double, as long as the
    result stays in range. *)
Lemma double_scale (v : Q) (k b : Z) :
  double v -> 0 <= k -> (Qabs v < 2 ^ b)%Q -> b + k <= 972 ->
  double (v * 2 ^ k).
Proof.
  intros (m & e & Hm & He & Ex) Hk Hb Hbk.
  destruct (Z.eq_dec m 0) as [->|Nm].
  { exists 0, 0. split; [reflexivity|]. split; [lia|].
    rewrite Ex, !Qmult_0_l. reflexivity. }
  assert (Ee : e < b).
  { apply pow2_lt_inv. eapply Qle_lt_trans; [|exact Hb].
    rewrite Ex, Qabs_Qmult.
    rewrite (Qabs_pos (2 ^ e)) by (apply Qlt_le_weak, pow2_pos).
    rewrite <- (Qmult_1_l (2 ^ e)) at 1.
    apply Qmult_le_compat_r; [|apply Qlt_le_weak, pow2_pos].
    unfold inject_Z. rewrite <- Zabs_Qabs.
    change 1%Q with (inject_Z 1). change (Z.abs m # 1) with (inject_Z (Z.abs m)).
    rewrite <- Zle_Qle. lia. }
  exists m, (e + k). split; [exact Hm|]. split; [lia|].
  rewrite Ex, pow2_add. ring.
Qed.

(** Taking an integer off a double below 2^53 without changing its sign
    or going past it gives a double: what [fmod] returns. *)
Lemma double_sub_Z (x : Q) (k : Z) :
  double x -> (x < 2 ^ 53)%Q ->
  (0 <= x - inject_Z k)%Q -> (x - inject_Z k <= x)%Q ->
  double (x - inject_Z k).
Proof.
  intros (m & e & Hm & He & Ex) Hx H0 H1.
  destruct (Z_le_gt_dec 0 e) as [Pe|Ne].
  - assert (Er : (x - inject_Z k == inject_Z (m * 2 ^ e - k))%Q).
    { rewrite Ex, inject_Z_sub, inject_Z_mult, <- pow2_Z by lia.
      reflexivity. }
    apply (double_comp (inject_Z (m * 2 ^ e - k))); [symmetry; exact Er|].
    apply double_Z.
    rewrite Er in H0, H1.
    assert (Hx' : (inject_Z (m * 2 ^ e - k) < inject_Z (2 ^ 53))%Q).
    { eapply Qle_lt_trans; [exact H1|].
      rewrite <- pow2_Z by lia. exact Hx. }
    change 0%Q with (inject_Z 0) in H0.
    rewrite <- Zle_Qle in H0. rewrite <- Zlt_Qlt in Hx'. lia.
  - assert (Ek : (inject_Z k == inject_Z (k * 2 ^ (- e)) * 2 ^ e)%Q).
    { rewrite inject_Z_mult, <- pow2_Z by lia.
      rewrite <- Qmult_assoc, <- pow2_add.
      replace (- e + e) with 0 by lia.
      change ((2:Q) ^ 0)%Q with 1%Q. ring. }
    assert (Er : (x - inject_Z k
                  == inject_Z (m - k * 2 ^ (- e)) * 2 ^ e)%Q).
    { rewrite inject_Z_sub. rewrite Ex, Ek at 1. ring. }
    exists (m - k * 2 ^ (- e)), e. split; [|split; [exact He | exact Er]].
    rewrite Er in H0, H1. rewrite Ex in H1.
    apply Qmult_le_r in H1; [|apply pow2_pos].
    rewrite <- (Qmult_0_l (2 ^ e)) in H0.
    apply Qmult_le_r in H0; [|apply pow2_pos].
    change 0%Q with (inject_Z 0) in H0.
    rewrite <- Zle_Qle in H0, H1. lia.
Qed.

(** *** The bytes of a Q9 value *)

Lemma py_int_floor (x : Q) : (0 <= x)%Q -> py_int x = Qfloor x.
Proof.
  destruct x as [n d]. unfold Qle, py_int, Qfloor. cbn. intros H.
  apply Z.quot_div_nonneg; lia.
Qed.

Lemma Qfloor_unique (z : Z) (x : Q) :
  (inject_Z z <= x)%Q -> (x < inject_Z (z + 1))%Q -> Qfloor x = z.
Proof.
  intros Hl Hu.
  pose proof (Qfloor_le x) as Fl. pose proof (Qlt_floor x) as Fu.
  assert (A : (inject_Z (Qfloor x) < inject_Z (z + 1))%Q)
    by (eapply Qle_lt_trans; eassumption).
  assert (B : (inject_Z z < inject_Z (Qfloor x + 1))%Q)
    by (eapply Qle_lt_trans; eassumption).
  rewrite <- Zlt_Qlt in A, B. lia.
Qed.

(** The two bytes written for a float [v] in [0, 128): no operation after
    the first rounds, and the pair holds the integer part of [512 * v]. *)
Lemma q9_encode (v : Q) :
  double v -> (0 <= v)%Q -> (v < 128)%Q ->
  let x := py_mul v (2 ^ 9) in
  py_int (py_div x (2 ^ 8)) * 256 + py_int (py_mod x (2 ^ 8))
  = Qfloor (v * 512)
  /\ byte (py_int (py_div x (2 ^ 8)))
  /\ byte (py_int (py_mod x (2 ^ 8))).
Proof.
  intros Dv H0 H1 x.
  assert (Av : (Qabs v < 2 ^ 7)%Q).
  { rewrite Qabs_pos by exact H0. exact H1. }
  assert (E9 : (2 ^ 9 == 512)%Q) by reflexivity.
  assert (E8 : (2 ^ 8 == 256)%Q) by reflexivity.
  assert (E1 : (2 ^ 1 == 2)%Q) by reflexivity.
  assert (Ex : (x == v * 2 ^ 9)%Q).
  { apply round_double_exact. apply (double_scale v 9 7); trivial; lia. }
  assert (Px : (0 <= x)%Q) by (rewrite Ex, E9; lra).
  assert (Eq : (x / 2 ^ 8 == v * 2 ^ 1)%Q).
  { rewrite Ex, pow2_div. reflexivity. }
  set (hi := Qfloor (v * 2 ^ 1)).
  pose proof (Qfloor_le (v * 2 ^ 1)) as Fl.
  pose proof (Qlt_floor (v * 2 ^ 1)) as Fu.
  fold hi in Fl, Fu. rewrite inject_Z_plus in Fu.
  change (inject_Z 1) with 1%Q in Fu. rewrite E1 in Fl, Fu.
  assert (Ed : (py_div x (2 ^ 8) == v * 2 ^ 1)%Q).
  { unfold py_div.
    rewrite (round_double_comp_nonneg (x / 2 ^ 8) (v * 2 ^ 1)).
    - apply round_double_exact. apply (double_scale v 1 7); trivial; lia.
    - rewrite Eq, E1. lra.
    - exact Eq. }
  assert (Hhi : py_int (py_div x (2 ^ 8)) = hi).
  { rewrite py_int_floor by (rewrite Ed, E1; lra).
    apply Qfloor_comp. exact Ed. }
  assert (Ea : (x - 2 ^ 8 * inject_Z (Qfloor (x / 2 ^ 8))
                == v * 2 ^ 9 - inject_Z (256 * hi))%Q).
  { rewrite (Qfloor_comp _ _ Eq). fold hi. rewrite inject_Z_mult.
    change (inject_Z 256) with 256%Q. rewrite Ex, E8. reflexivity. }
  assert (Ra : (0 <= v * 2 ^ 9 - inject_Z (256 * hi))%Q
               /\ (v * 2 ^ 9 - inject_Z (256 * hi) < 256)%Q).
  { rewrite inject_Z_mult. change (inject_Z 256) with 256%Q.
    rewrite E9. split; lra. }
  destruct Ra as [Ra0 Ra1].
  assert (Hhi0 : 0 <= hi < 256).
  { assert (A : (inject_Z (-1) < inject_Z hi)%Q)
      by (change (inject_Z (-1)) with (-1)%Q; lra).
    assert (B : (inject_Z hi < inject_Z 256)%Q)
      by (change (inject_Z 256) with 256%Q; lra).
    rewrite <- Zlt_Qlt in A, B. lia. }
  assert (Em : (py_mod x (2 ^ 8) == v * 2 ^ 9 - inject_Z (256 * hi))%Q).
  { unfold py_mod.
    rewrite (round_double_comp_nonneg _ (v * 2 ^ 9 - inject_Z (256 * hi))).
    - apply round_double_exact. apply double_sub_Z.
      + apply (double_scale v 9 7); trivial; lia.
      + rewrite E9. apply Qlt_trans with (2 ^ 16)%Q; [|reflexivity].
        change (2 ^ 16)%Q with 65536%Q. lra.
      + exact Ra0.
      + assert (A : (0 <= inject_Z (256 * hi))%Q).
        { change 0%Q with (inject_Z 0). rewrite <- Zle_Qle. lia. }
        lra.
    - rewrite Ea. exact Ra0.
    - exact Ea. }
  assert (Hlo : py_int (py_mod x (2 ^ 8)) = Qfloor (v * 512) - 256 * hi).
  { rewrite py_int_floor by (rewrite Em; exact Ra0).
    rewrite (Qfloor_comp _ _ Em).
    pose proof (Qfloor_le (v * 512)) as Gl.
    pose proof (Qlt_floor (v * 512)) as Gu.
    rewrite inject_Z_plus in Gu. change (inject_Z 1) with 1%Q in Gu.
    apply Qfloor_unique.
    - rewrite inject_Z_sub, E9. lra.
    - rewrite inject_Z_plus, inject_Z_sub, E9.
      change (inject_Z 1) with 1%Q. lra. }
  rewrite Hhi, Hlo. split; [lia|]. split; [exact Hhi0|].
  unfold byte.
  pose proof (Qfloor_le (v * 512)) as Gl.
  pose proof (Qlt_floor (v * 512)) as Gu.
  rewrite inject_Z_plus in Gu. change (inject_Z 1) with 1%Q in Gu.
  rewrite inject_Z_mult in Ra0, Ra1. change (inject_Z 256) with 256%Q in Ra0, Ra1.
  rewrite E9 in Ra0, Ra1.
  assert (A : (inject_Z (256 * hi) < inject_Z (Qfloor (v * 512) + 1))%Q).
  { rewrite inject_Z_plus, inject_Z_mult.
    change (inject_Z 256) with 256%Q. change (inject_Z 1) with 1%Q. lra. }
  assert (B : (inject_Z (Qfloor (v * 512)) < inject_Z (256 * hi + 256))%Q).
  { rewrite inject_Z_plus, inject_Z_mult.
    change (inject_Z 256) with 256%Q. lra. }
  rewrite <- Zlt_Qlt in A, B. lia.
Qed.

Lemma double_grid (g : Z) : Z.abs g < 2 ^ 53 -> double (inject_Z g / 512).
Proof.
  intros H. exists g, (-9). split; [exact H|]. split; [lia|].
  unfold Qdiv. apply Qmult_comp; reflexivity.
Qed.

(** Rounding does not cross a double. *)
Lemma round_double_le (x d : Q) :
  double d -> (0 <= x)%Q -> (x <= d)%Q -> (round_double x <= d)%Q.
Proof.
  intros Dd H0 H. rewrite <- (round_double_exact d Dd).
  apply round_double_monotone_nonneg; assumption.
Qed.

Lemma round_double_ge (x d : Q) :
  double d -> (0 <= d)%Q -> (d <= x)%Q -> (d <= round_double x)%Q.
Proof.
  intros Dd H0 H. rewrite <- (round_double_exact d Dd) at 1.
  apply round_double_monotone_nonneg; assumption.
Qed.

(** Above 64 a double is a multiple of 2^-46, and so is its sum with 25;
    below 128 the sum is a double. *)
Lemma double_add_25 (t : Q) :
  double t -> (64 < t)%Q -> (t < 103)%Q -> double (t + 25).
Proof.
  intros (m & e & Hm & He & Ex) H0 H1.
  assert (Pm : 0 < m).
  { destruct (Z_lt_le_dec 0 m) as [P|N]; [exact P|]. exfalso.
    assert (A : (inject_Z m * 2 ^ e <= 0 * 2 ^ e)%Q).
    { apply Qmult_le_compat_r; [|apply Qlt_le_weak, pow2_pos].
      change 0%Q with (inject_Z 0). rewrite <- Zle_Qle. exact N. }
    rewrite Qmult_0_l in A. lra. }
  assert (Ee : 6 < 53 + e).
  { apply pow2_lt_inv. change (2 ^ 6)%Q with 64%Q.
    eapply Qlt_trans; [exact H0|]. rewrite Ex, pow2_add.
    apply Qmult_lt_r; [apply pow2_pos|].
    rewrite pow2_Z by lia. rewrite <- Zlt_Qlt. lia. }
  assert (Er : (t + 25 == inject_Z (m * 2 ^ (e + 46) + 25 * 2 ^ 46)
                          * 2 ^ (-46))%Q).
  { rewrite inject_Z_plus, !inject_Z_mult, <- !pow2_Z by lia.
    rewrite Qmult_plus_distr_l, <- !Qmult_assoc, <- !pow2_add.
    replace (e + 46 + -46) with e by lia. change (46 + -46) with 0.
    change ((2:Q) ^ 0)%Q with 1%Q. change (inject_Z 25) with 25%Q.
    rewrite Ex. ring. }
  exists (m * 2 ^ (e + 46) + 25 * 2 ^ 46), (-46).
  split; [|split; [lia | exact Er]].
  assert (B : (inject_Z (m * 2 ^ (e + 46) + 25 * 2 ^ 46) * 2 ^ (-46)
               < inject_Z (2 ^ 53) * 2 ^ (-46))%Q).
  { rewrite <- Er. apply Qlt_le_trans with 128%Q; [lra|].
    apply Qle_lteq. right. reflexivity. }
  apply Qmult_lt_r in B; [|apply pow2_pos].
  rewrite <- Zlt_Qlt in B.
  assert (P : 0 <= m * 2 ^ (e + 46)) by (apply Z.mul_nonneg_nonneg; lia).
  lia.
Qed.

(** The float [temperature + 25] for a float temperature in (-25, 103). *)
Lemma py_add_25 (t : Q) :
  double t -> (-25 < t)%Q -> (t < 103)%Q ->
  double (py_add t 25)
  /\ (0 <= py_add t 25)%Q /\ (py_add t 25 < 128)%Q
  /\ (t + 25 - (1 # 512) < inject_Z (Qfloor (py_add t 25 * 512)) / 512)%Q
  /\ (inject_Z (Qfloor (py_add t 25 * 512)) / 512 < t + 25 + (1 # 512))%Q.
Proof.
  intros Dt H0 H1. unfold py_add.
  assert (P : (0 <= t + 25)%Q) by lra.
  assert (S0 : (0 <= round_double (t + 25))%Q)
    by (apply round_double_nonneg; exact P).
  assert (S1 : (round_double (t + 25) < 128)%Q).
  { destruct (Qlt_le_dec 102 t) as [L|L].
    - rewrite round_double_exact; [lra|].
      apply double_add_25; [exact Dt | lra | exact H1].
    - apply Qle_lt_trans with (inject_Z 127); [|reflexivity].
      apply round_double_le; [apply double_Z; reflexivity | exact P|].
      change (inject_Z 127) with 127%Q. lra. }
  split.
  { apply round_double_double; [exact P|].
    apply Qlt_trans with 128%Q; [lra | reflexivity]. }
  split; [exact S0|]. split; [exact S1|].
  set (s := round_double (t + 25)) in *.
  pose proof (Qfloor_le (s * 512)) as Gl.
  pose proof (Qlt_floor (s * 512)) as Gu.
  set (g := Qfloor (s * 512)) in *.
  rewrite inject_Z_plus in Gu. change (inject_Z 1) with 1%Q in Gu.
  assert (Hg : 0 <= g < 65536).
  { assert (A : (inject_Z (-1) < inject_Z g)%Q)
      by (change (inject_Z (-1)) with (-1)%Q; lra).
    assert (B : (inject_Z g < inject_Z 65536)%Q)
      by (change (inject_Z 65536) with 65536%Q; lra).
    rewrite <- Zlt_Qlt in A, B. lia. }
  assert (Dg : forall k : Z, (inject_Z k / 512 == inject_Z k * (1 # 512))%Q)
    by (intros k; field).
  split.
  - apply Qnot_le_lt. intros C.
    assert (D : (inject_Z (g + 1) / 512 <= s)%Q).
    { apply round_double_ge; [apply double_grid; lia | |].
      - rewrite Dg, inject_Z_plus. change (inject_Z 1) with 1%Q. lra.
      - rewrite Dg, inject_Z_plus. change (inject_Z 1) with 1%Q.
        rewrite Dg in C. lra. }
    rewrite Dg, inject_Z_plus in D. change (inject_Z 1) with 1%Q in D. lra.
  - apply Qnot_le_lt. intros C.
    destruct (Z.eq_dec g 0) as [G0|G0].
    { rewrite G0 in C. rewrite Dg in C. change (inject_Z 0) with 0%Q in C. lra. }
    assert (D : (s <= inject_Z (g - 1) / 512)%Q).
    { apply round_double_le; [apply double_grid; lia | exact P|].
      rewrite Dg, inject_Z_sub. change (inject_Z 1) with 1%Q.
      rewrite Dg in C. lra. }
    rewrite Dg, inject_Z_sub in D. change (inject_Z 1) with 1%Q in D. lra.
Qed.

(** *** What [writeEnvironmentData] writes *)

(** C6 (as amended).  For floats with 0 < humidity < 128 and
    -25 < temperature < 103, [writeEnvironmentData] performs one write of
    the environment-data address followed by four bytes; read back as
    (hi*256 + lo)/512, the first pair is within 1/512 of the humidity and the
    second within 1/512 of the temperature plus 25.  For humidity <= 0 or
    temperature <= -25 nothing is written. *)
Theorem writeEnvironmentData_q9
    (wire : nat -> Reply) (humidity temperature : Q) (s : Bus) :
  (double humidity -> double temperature ->
   (0 < humidity /\ humidity < 128)%Q ->
   (-25 < temperature /\ temperature < 103)%Q ->
   exists hh hl th tl : Z,
     CCS811.writeEnvironmentData wire humidity temperature s
     = mkRun (Ret tt) (mkBus (reply_code (wire (txn s))) (S (txn s)))
         [Write [0x05; hh; hl; th; tl]]
     /\ (byte hh /\ byte hl /\ byte th /\ byte tl)
     /\ (humidity - (1 # 512) < q9_decode hh hl
         /\ q9_decode hh hl < humidity + (1 # 512))%Q
     /\ (temperature + 25 - (1 # 512) < q9_decode th tl
         /\ q9_decode th tl < temperature + 25 + (1 # 512))%Q)
  /\ (~ ((0 < humidity)%Q /\ (-25 < temperature)%Q) ->
      CCS811.writeEnvironmentData wire humidity temperature s
      = mkRun (Ret tt) s []).
Proof.
  split.
  - intros Dh Dt [Hh0 Hh1] [Ht0 Ht1]. unfold CCS811.writeEnvironmentData.
    rewrite (proj2 (Qltb_lt 0 humidity) Hh0).
    rewrite (proj2 (Qltb_lt (-25) temperature) Ht0).
    cbn [andb]. rewrite i2c_write_run. unfold CCS811.write_data.
    destruct (q9_encode humidity Dh (Qlt_le_weak _ _ Hh0) Hh1)
      as (Sh & Bhh & Bhl).
    destruct (py_add_25 temperature Dt Ht0 Ht1) as (Ds & S0 & S1 & Gl & Gu).
    destruct (q9_encode (py_add temperature 25) Ds S0 S1) as (St & Bth & Btl).
    cbv zeta in Sh, Bhh, Bhl, St, Bth, Btl.
    do 4 eexists. split; [reflexivity|].
    split; [repeat split; first [apply Bhh | apply Bhl | apply Bth | apply Btl]|].
    unfold q9_decode. rewrite Sh, St. split; [|split; assumption].
    pose proof (Qfloor_le (humidity * 512)) as Fl.
    pose proof (Qlt_floor (humidity * 512)) as Fu.
    rewrite inject_Z_plus in Fu. change (inject_Z 1) with 1%Q in Fu.
    assert (Hd : (inject_Z (Qfloor (humidity * 512)) / 512
                  == inject_Z (Qfloor (humidity * 512)) * (1 # 512))%Q)
      by field.
    rewrite Hd. split; lra.
  - intros N. unfold CCS811.writeEnvironmentData.
    destruct (Qltb 0 humidity) eqn:A; [|reflexivity].
    destruct (Qltb (-25) temperature) eqn:B; [|reflexivity].
    exfalso. apply N. split; apply Qltb_lt; assumption.
Qed.

Lemma writeEnvironmentData_q9_witness :
  (exists hh hl th tl : Z,
      CCS811.writeEnvironmentData (steady [] 0)
        (201 # 4) (20 - (1 # 281474976710656)) idle
      = mkRun (Ret tt) (mkBus 0 1) [Write [0x05; hh; hl; th; tl]]
      /\ (byte hh /\ byte hl /\ byte th /\ byte tl)
      /\ ((201 # 4) - (1 # 512) < q9_decode hh hl
          /\ q9_decode hh hl < (201 # 4) + (1 # 512))%Q
      /\ (20 - (1 # 281474976710656) + 25 - (1 # 512) < q9_decode th tl
          /\ q9_decode th tl
             < 20 - (1 # 281474976710656) + 25 + (1 # 512))%Q)
  /\ CCS811.writeEnvironmentData (steady [] 0) 0 20 idle
     = mkRun (Ret tt) idle [].
Proof.
  split.
  - apply (writeEnvironmentData_q9 (steady [] 0)
             (201 # 4) (20 - (1 # 281474976710656)) idle).
    + exists 201, (-2). split; [reflexivity|]. split; [lia | reflexivity].
    + exists 5629499534213119, (-48).
      split; [reflexivity|]. split; [lia | reflexivity].
    + split; reflexivity.
    + split; reflexivity.
  - apply (writeEnvironmentData_q9 (steady [] 0) 0 20 idle).
    intros [H _]. discriminate H.
Defined.

(** What is written for 50.25 percent and 20 degrees. *)
Example writeEnvironmentData_bytes :
  emitted (CCS811.writeEnvironmentData (steady [] 0) (201 # 4) 20 idle)
  = [Write [0x05; 100; 128; 90; 0]].
Proof. vm_compute. reflexivity. Qed.

(** The sum [temperature + 25] is rounded before it is scaled: for the float
    next below 20, which is 20 - 2^-48, the sum 45 - 2^-48 lies half way
    between two floats and becomes 45; for -2^-60 the sum becomes 25.  The
    bytes written are those of 45 and of 25. *)
Example writeEnvironmentData_rounded_sum :
  emitted (CCS811.writeEnvironmentData (steady [] 0)
             50 (20 - (1 # 281474976710656)) idle)
  = [Write [0x05; 100; 0; 90; 0]]
  /\ emitted (CCS811.writeEnvironmentData (steady [] 0)
                50 (- (1 # 1152921504606846976)) idle)
     = [Write [0x05; 100; 0; 50; 0]].
Proof. split; vm_compute; reflexivity. Qed.

(** C6 as stated fails twice.  Read back as (hi*256 + lo)/512, the second
    pair written for 20 degrees is 45, the temperature plus 25, and not a
    value within 1/512 of 20.  And for a humidity of 128 and a temperature of
    103 both high values of the list handed to the bus are 256, which is no
    byte: the payload is four bytes only below 128 percent and below 103
    degrees. *)
Lemma writeEnvironmentData_offset_and_range :
  (emitted (CCS811.writeEnvironmentData (steady [] 0) 50 20 idle)
   = [Write [0x05; 100; 0; 90; 0]]
   /\ (q9_decode 90 0 == 45)%Q
   /\ ~ (20 - (1 # 512) < q9_decode 90 0 /\ q9_decode 90 0 < 20 + (1 # 512))%Q)
  /\ (CCS811.write_data 128 103 = [0x05; 256; 0; 256; 0] /\ ~ byte 256).
Proof.
  split.
  - split; [vm_compute; reflexivity|]. split; [reflexivity|].
    intros [_ H]. revert H. apply Qle_not_lt. discriminate.
  - split; [vm_compute; reflexivity|]. unfold byte. lia.
Qed.

(** * Further properties of the drivers *)

(** ** Status interpretation of the gas sensor *)


(** X2.  With the error bit clear [interpretStatus] touches nothing: no
    transaction, no pause, the device state as before.  It logs at most one
    line, for the first check that fails in the order data-ready, firmware,
    application mode. *)
Theorem interpretStatus_quiet_without_error
    (wire : nat -> Reply) (status error_id : Z) (s : Bus) :
  Z.testbit status 0 = false ->
  final (CCS811.interpretStatus wire status error_id s) = s
  /\ emitted (CCS811.interpretStatus wire status error_id s)
     = (if negb (Z.testbit status 3) then
          [Log INFO "CCS811 has no new data"]
        else if negb (Z.testbit status 4) then
          [Log INFO "CCS811 did not load valid application firmware"]
        else if negb (Z.testbit status 7) then
          [Log INFO "CCS811 is not in application mode"]
        else []).
Proof.
  intros H0. unfold CCS811.interpretStatus. rewrite !mask_eqb by lia.
  rewrite H0. cbn [negb].
  destruct (Z.testbit status 3); cbn [negb]; [|split; reflexivity].
  destruct (Z.testbit status 4); cbn [negb]; [|split; reflexivity].
  destruct (Z.testbit status 7); split; reflexivity.
Qed.

Lemma interpretStatus_quiet_without_error_witness :
  final (CCS811.interpretStatus (steady [] 0) 0x90 0xFF idle) = idle
  /\ emitted (CCS811.interpretStatus (steady [] 0) 0x90 0xFF idle)
     = [Log INFO "CCS811 has no new data"].
Proof.
  apply (interpretStatus_quiet_without_error (steady [] 0) 0x90 0xFF idle).
  reflexivity.
Defined.

(** The six bits of [error_id] that are decoded. *)
Lemma first_error_low_bits (error_id : Z) :
  first_error (Z.land error_id 63) = first_error error_id.
Proof.
  unfold first_error, error_table, find, fst, snd.
  rewrite !Z.land_spec.
  change (Z.testbit 63 0) with true. change (Z.testbit 63 1) with true.
  change (Z.testbit 63 2) with true. change (Z.testbit 63 3) with true.
  change (Z.testbit 63 4) with true. change (Z.testbit 63 5) with true.
  rewrite !andb_true_r. reflexivity.
Qed.

Lemma land_63_zero (e : Z) :
  Z.land e 63 = 0 <->
  Z.testbit e 0 = false /\ Z.testbit e 1 = false /\ Z.testbit e 2 = false
  /\ Z.testbit e 3 = false /\ Z.testbit e 4 = false /\ Z.testbit e 5 = false.
Proof.
  split.
  - intros H.
    assert (B : forall k, Z.testbit (Z.land e 63) k = false)
      by (intros k; rewrite H; apply Z.bits_0).
    repeat split;
      match goal with
      | |- Z.testbit e ?k = false =>
          specialize (B k); rewrite Z.land_spec in B;
          change (Z.testbit 63 k) with true in B;
          rewrite andb_true_r in B; exact B
      end.
  - intros (H0 & H1 & H2 & H3 & H4 & H5).
    apply Z.bits_inj'. intros n Hn. rewrite Z.land_spec, Z.bits_0.
    destruct (Z.ltb_spec n 6) as [Hlt|Hge].
    + assert (C : n = 0 \/ n = 1 \/ n = 2 \/ n = 3 \/ n = 4 \/ n = 5) by lia.
      destruct C as [->|[->|[->|[->|[->| ->]]]]];
        match goal with
        | H : Z.testbit e ?k = false |- Z.testbit e ?k && _ = false =>
            rewrite H; reflexivity
        end.
    + replace (Z.testbit 63 n) with false; [apply andb_false_r|].
      symmetry. change 63 with (Z.ones 6). apply Z.ones_spec_high. lia.
Qed.

(** X3.  The cause reported on an error depends on bits 0-5 of [error_id]
    only, and no cause is reported exactly when these six bits are clear;
    the reset and the initialization do not depend on the cause. *)
Theorem report_error_id_six_bits
    (wire : nat -> Reply) (error_id : Z) (s : Bus) :
  CCS811.report_error_id (Z.land error_id 63) s
  = CCS811.report_error_id error_id s
  /\ (emitted (CCS811.report_error_id error_id s) = []
      <-> Z.land error_id 63 = 0)
  /\ (forall status, Z.testbit status 0 = true ->
        bus_writes (emitted (CCS811.interpretStatus wire status error_id s))
        = bus_writes (emitted (CCS811.interpretStatus wire status 0 s))).
Proof.
  split; [|split].
  - rewrite !report_error_id_run, first_error_low_bits. reflexivity.
  - rewrite report_error_id_run, land_63_zero. cbn [emitted].
    unfold first_error, error_table, find, fst, snd. split.
    + intros H.
      repeat match goal with
             | H : context [Z.testbit error_id ?k] |- _ =>
                 destruct (Z.testbit error_id k); [discriminate H|]
             end.
      repeat split.
    + intros (H0 & H1 & H2 & H3 & H4 & H5).
      rewrite H0, H1, H2, H3, H4, H5. reflexivity.
  - intros status H0. rewrite !interpretStatus_error by exact H0.
    cbn [emitted bus_writes]. rewrite !bus_writes_app, !bus_writes_first_error.
    reflexivity.
Qed.

Lemma report_error_id_six_bits_witness :
  bus_writes (emitted (CCS811.interpretStatus (steady [] 0) 1 0x3F idle))
  = bus_writes (emitted (CCS811.interpretStatus (steady [] 0) 1 0 idle)).
Proof.
  apply (report_error_id_six_bits (steady [] 0) 0x3F idle). reflexivity.
Defined.

(** ** Readings of the gas sensor *)

Lemma interpretStatus_run_shape
    (wire : nat -> Reply) (status error_id : Z) (s : Bus) :
  exists s' evs,
    CCS811.interpretStatus wire status error_id s
    = mkRun (Ret (negb (Z.testbit status 0) && Z.testbit status 3
                  && Z.testbit status 4 && Z.testbit status 7)) s' evs
    /\ (Z.testbit status 0 = false -> s' = s /\ bus_writes evs = []).
Proof.
  destruct (Z.testbit status 0) eqn:H0.
  - do 2 eexists. split.
    + apply interpretStatus_error. exact H0.
    + discriminate.
  - unfold CCS811.interpretStatus. rewrite !mask_eqb by lia. rewrite H0.
    cbn [negb andb].
    destruct (Z.testbit status 3);
      [|do 2 eexists; split; [reflexivity | split; reflexivity]].
    destruct (Z.testbit status 4);
      [|do 2 eexists; split; [reflexivity | split; reflexivity]].
    destruct (Z.testbit status 7);
      do 2 eexists; split; try reflexivity; split; reflexivity.
Qed.

(** X4.  What [getECO2ETVOC] returns from eight bytes of a successful
    transaction depends on bytes 0-3 and on the status byte only: the error
    identifier and the two diagnostic bytes do not change it. *)
Theorem getECO2ETVOC_depends_on_five_bytes
    (wire1 wire2 : nat -> Reply) (s1 s2 : Bus)
    (d0 d1 d2 d3 status e1 e2 a6 a7 b6 b7 : Z) :
  wire1 (txn s1) = mkReply [d0; d1; d2; d3; status; e1; a6; a7] 0 ->
  wire2 (txn s2) = mkReply [d0; d1; d2; d3; status; e2; b6; b7] 0 ->
  outcome (CCS811.getECO2ETVOC wire1 s1)
  = outcome (CCS811.getECO2ETVOC wire2 s2).
Proof.
  intros H1 H2. unfold CCS811.getECO2ETVOC.
  destruct (interpretStatus_run_shape wire1 status e1 (mkBus 0 (S (txn s1))))
    as (t1 & ev1 & R1 & _).
  destruct (interpretStatus_run_shape wire2 status e2 (mkBus 0 (S (txn s2))))
    as (t2 & ev2 & R2 & _).
  rewrite (getECO2ETVOC_body_run wire1 _ s1 t1 _ _ _ _ _ _ _ _ _ ev1 H1 R1).
  rewrite (getECO2ETVOC_body_run wire2 _ s2 t2 _ _ _ _ _ _ _ _ _ ev2 H2 R2).
  cbv zeta.
  destruct (negb (Z.testbit status 0) && Z.testbit status 3
            && Z.testbit status 4 && Z.testbit status 7); [|reflexivity].
  destruct ((Z.shiftl d2 8 + d3 <? 0) || (32768 <? Z.shiftl d2 8 + d3));
    reflexivity.
Qed.

Lemma getECO2ETVOC_depends_on_five_bytes_witness :
  outcome (CCS811.getECO2ETVOC
             (steady [0x01; 0x90; 0x00; 0x2A; 0x98; 0x00; 0x00; 0x00] 0) idle)
  = outcome (CCS811.getECO2ETVOC
               (steady [0x01; 0x90; 0x00; 0x2A; 0x98; 0x3F; 0xFF; 0xFF] 0) idle).
Proof.
  apply (getECO2ETVOC_depends_on_five_bytes
           (steady [0x01; 0x90; 0x00; 0x2A; 0x98; 0x00; 0x00; 0x00] 0)
           (steady [0x01; 0x90; 0x00; 0x2A; 0x98; 0x3F; 0xFF; 0xFF] 0)
           idle idle 0x01 0x90 0x00 0x2A 0x98 0x00 0x3F 0x00 0x00 0xFF 0xFF);
    reflexivity.
Defined.

(** X5.  A reading costs one transaction when the status has the error bit
    clear, and writes nothing; with the error bit set the three writes of
    the recovery follow, four transactions in all. *)
Theorem getECO2ETVOC_transactions
    (wire : nat -> Reply) (s : Bus) (d0 d1 d2 d3 status error_id d6 d7 : Z) :
  wire (txn s) = mkReply [d0; d1; d2; d3; status; error_id; d6; d7] 0 ->
  (Z.testbit status 0 = false ->
   final (CCS811.getECO2ETVOC wire s) = mkBus 0 (S (txn s))
   /\ bus_writes (emitted (CCS811.getECO2ETVOC wire s)) = [])
  /\ (Z.testbit status 0 = true ->
      txn (final (CCS811.getECO2ETVOC wire s)) = (txn s + 4)%nat
      /\ bus_writes (emitted (CCS811.getECO2ETVOC wire s))
         = [[0xFF; 0x11; 0xE5; 0x72; 0x8A]; [0xF4]; [0x01; 0x10]]).
Proof.
  intros Hw. split; intros H0.
  - destruct (interpretStatus_run_shape wire status error_id
                (mkBus 0 (S (txn s)))) as (s' & evs & R & Q).
    destruct (Q H0) as [-> Hev]. unfold CCS811.getECO2ETVOC.
    rewrite (getECO2ETVOC_body_run wire _ s _ _ _ _ _ _ _ _ _ _ evs Hw R).
    cbv zeta.
    destruct (negb (Z.testbit status 0) && Z.testbit status 3
              && Z.testbit status 4 && Z.testbit status 7).
    + destruct ((Z.shiftl d2 8 + d3 <? 0) || (32768 <? Z.shiftl d2 8 + d3));
        cbn [final emitted bus_writes];
        rewrite ?bus_writes_app, Hev; split; reflexivity.
    + cbn [final emitted bus_writes]. rewrite Hev. split; reflexivity.
  - unfold CCS811.getECO2ETVOC.
    rewrite (getECO2ETVOC_body_run wire _ s _ _ _ _ _ _ _ _ _ false _ Hw
               (interpretStatus_error wire status error_id _ H0)).
    cbn [final emitted bus_writes txn].
    rewrite bus_writes_app, bus_writes_first_error.
    split; [lia | reflexivity].
Qed.

Lemma getECO2ETVOC_transactions_witness :
  (final (CCS811.getECO2ETVOC (steady [1; 2; 3; 4; 0x98; 0; 0; 0] 0) idle)
   = mkBus 0 1
   /\ bus_writes
        (emitted (CCS811.getECO2ETVOC (steady [1; 2; 3; 4; 0x98; 0; 0; 0] 0) idle))
      = [])
  /\ txn (final (CCS811.getECO2ETVOC (steady [1; 2; 3; 4; 0x99; 1; 0; 0] 0) idle))
     = 4%nat.
Proof.
  split.
  - apply (getECO2ETVOC_transactions
             (steady [1; 2; 3; 4; 0x98; 0; 0; 0] 0) idle 1 2 3 4 0x98 0 0 0);
      reflexivity.
  - apply (getECO2ETVOC_transactions
             (steady [1; 2; 3; 4; 0x99; 1; 0; 0] 0) idle 1 2 3 4 0x99 1 0 0);
      reflexivity.
Defined.

(** X6.  From bytes, [getECO2ETVOC] returns the pair (-1, -1) or an eCO2
    value in [0, 65535] with a TVOC value in [0, 32768]: no other negative
    number and no TVOC above 32768 reaches the caller. *)
Theorem getECO2ETVOC_range (wire : nat -> Reply) (s : Bus) (e t : Z) :
  Forall byte (reply_data (wire (txn s))) ->
  outcome (CCS811.getECO2ETVOC wire s) = Ret (e, t) ->
  (e = -1 /\ t = -1) \/ (0 <= e <= 65535 /\ 0 <= t <= 32768).
Proof.
  intros HB H. unfold CCS811.getECO2ETVOC, CCS811.getECO2ETVOC_body in H.
  step_in H.
  match goal with
  | E : i2c_writeread _ _ _ _ = mkRun (Ret ?a) _ _ |- _ =>
      assert (Ha : a = reply_data (wire (txn s))) by (inversion E; reflexivity);
      subst a; clear E
  end.
  step_in H.
  case_in H; [|left; inversion H; split; reflexivity].
  do 3 step_in H.
  case_in H; [|left; inversion H; split; reflexivity].
  do 7 step_in H.
  repeat match goal with
         | E : item _ _ _ = mkRun (Ret ?b) _ _ |- _ =>
             apply item_ret in E;
             apply (proj1 (Forall_forall _ _) HB) in E; unfold byte in E
         end.
  case_in H.
  - step_in H. left. inversion H. split; reflexivity.
  - right.
    match goal with
    | C : _ || _ = false |- _ =>
        apply orb_false_iff in C; destruct C as [_ C];
        apply Z.ltb_ge in C; rewrite shiftl_8 in C
    end.
    rewrite !shiftl_8 in H. unfold ret in H. cbn [outcome] in H.
    match type of H with
    | Ret (?x, ?y) = _ =>
        remember x as eCO2 eqn:He; remember y as TVOC eqn:Ht
    end.
    injection H as <- <-. lia.
Qed.

Lemma getECO2ETVOC_range_witness :
  (400 = -1 /\ 42 = -1) \/ (0 <= 400 <= 65535 /\ 0 <= 42 <= 32768).
Proof.
  apply (getECO2ETVOC_range
           (steady [0x01; 0x90; 0x00; 0x2A; 0x98; 0; 0; 0] 0) idle 400 42).
  - repeat constructor; unfold byte; lia.
  - reflexivity.
Defined.

(** Steps of a run towards a known result. *)
Ltac run_to :=
  repeat (first
            [ erewrite bind_run
                by first [ apply interpretStatus_valid; assumption
                         | reflexivity ]
            | erewrite bind_raise by reflexivity ];
          cbv beta).

(** X7.  After a successful transaction the reply is indexed without a
    length check: with fewer than six bytes the call raises IndexError before
    any interpretation, and with a valid status it raises IndexError unless
    there are at least eight bytes, the two unused diagnostic bytes
    included. *)
Theorem getECO2ETVOC_short_reply
    (wire : nat -> Reply) (s : Bus) (payload : list Z) :
  wire (txn s) = mkReply payload 0 ->
  ((List.length payload < 6)%nat ->
   CCS811.getECO2ETVOC wire s
   = mkRun (Raise IndexError) (mkBus 0 (S (txn s))) [WriteRead 0x02 8])
  /\ (forall status : Z,
         nth_error payload 4 = Some status ->
         Z.testbit status 0 = false -> Z.testbit status 3 = true ->
         Z.testbit status 4 = true -> Z.testbit status 7 = true ->
         (outcome (CCS811.getECO2ETVOC wire s) = Raise IndexError
          <-> (List.length payload < 8)%nat)).
Proof.
  intros Hw.
  assert (Hstart : forall f,
             CCS811.getECO2ETVOC_body wire f s
             = prepend [WriteRead 0x02 8]
                 (bind i2c_status_code
                    (fun code =>
                       if code =? 0 then
                         bind (item payload 4) (fun status =>
                         bind (item payload 5) (fun error_id =>
                         bind (f status error_id) (fun ok =>
                         if (ok : bool) then
                           bind (item payload 0) (fun d0 =>
                           bind (item payload 1) (fun d1 =>
                           bind (item payload 2) (fun d2 =>
                           bind (item payload 3) (fun d3 =>
                           bind (item payload 6) (fun d6 =>
                           bind (item payload 6) (fun d6' =>
                           bind (item payload 7) (fun d7 =>
                           if (Z.shiftl d2 8 + d3 <? 0)
                              || (32768 <? Z.shiftl d2 8 + d3)
                           then bind (logging_warning
                                        "CCS811 eCO2 value is strange.")
                                  (fun _ => ret (-1, -1))
                           else ret (Z.shiftl d0 8 + d1,
                                     Z.shiftl d2 8 + d3))))))))
                         else ret (-1, -1))))
                       else ret (-1, -1))
                    (mkBus 0 (S (txn s))))).
  { intros f. unfold CCS811.getECO2ETVOC_body.
    erewrite bind_run
      by (unfold i2c_writeread, transact; rewrite Hw; reflexivity).
    reflexivity. }
  unfold CCS811.getECO2ETVOC. rewrite Hstart. clear Hstart.
  erewrite bind_run by reflexivity. cbv beta. cbn [status_code].
  change (0 =? 0) with true. cbv iota.
  split.
  - intros Hlen.
    destruct payload as [|d0 [|d1 [|d2 [|d3 [|d4 [|d5 rest]]]]]];
      try (cbn in Hlen; lia); run_to; reflexivity.
  - intros status H4 H0 H3 H4' H7.
    destruct payload as [|d0 [|d1 [|d2 [|d3 [|d4 rest]]]]];
      try discriminate H4.
    cbn in H4. injection H4 as ->.
    destruct rest as [|d5 [|d6 [|d7 rest]]].
    + run_to. split; [intros _; apply Nat.ltb_lt; reflexivity | reflexivity].
    + run_to. split; [intros _; apply Nat.ltb_lt; reflexivity | reflexivity].
    + run_to. split; [intros _; apply Nat.ltb_lt; reflexivity | reflexivity].
    + run_to. cbv iota. run_to. cbv zeta.
      lazymatch goal with
      | |- context [if ?c then _ else _] => destruct c
      end;
        run_to; cbn [prepend outcome ret];
        (split; [intros Hx; discriminate Hx | intros Hl; simpl in Hl; lia]).
Qed.

Lemma getECO2ETVOC_short_reply_witness :
  CCS811.getECO2ETVOC (steady [] 0) idle
  = mkRun (Raise IndexError) (mkBus 0 1) [WriteRead 0x02 8]
  /\ outcome (CCS811.getECO2ETVOC (steady [1; 2; 3; 4; 0x98; 0; 7] 0) idle)
     = Raise IndexError.
Proof.
  split.
  - apply (getECO2ETVOC_short_reply (steady [] 0) idle []);
      [reflexivity | cbn; lia].
  - apply (getECO2ETVOC_short_reply (steady [1; 2; 3; 4; 0x98; 0; 7] 0) idle
             [1; 2; 3; 4; 0x98; 0; 7] eq_refl) with (status := 0x98);
      try reflexivity.
    cbn. lia.
Defined.

(** ** Status check of the humidity and temperature sensor *)

(** X8.  [checkStatus] gives True exactly for a status with bit 7 clear and
    bit 3 set.  A busy status is reported and nothing else happens, also when
    the calibration bit is clear; a status that is not busy and not
    calibrated is reported and followed by [initialize], whose write is the
    only transaction, and the result is False. *)
Theorem checkStatus_cases
    (wire : nat -> Reply) (self : MAX30102.Self) (status : Z) (s : Bus) :
  (Z.testbit status 7 = true ->
   MAX30102.checkStatus wire self status s
   = mkRun (Ret false) s [Log WARNING "MAX30102 is busy"])
  /\ (Z.testbit status 7 = false -> Z.testbit status 3 = false ->
      forall ini : list Z,
        MAX30102._INIT_CMD_LIST self = Some ini ->
        MAX30102.checkStatus wire self status s
        = mkRun (Ret false) (mkBus (reply_code (wire (txn s))) (S (txn s)))
            [ Log WARNING "MAX30102 calibration is not enabled";
              Write ini; Sleep; Log INFO "MAX30102 initialized." ])
  /\ (outcome (MAX30102.checkStatus wire self status s) = Ret true
      <-> Z.testbit status 7 = false /\ Z.testbit status 3 = true).
Proof.
  split; [|split].
  - intros H7. unfold MAX30102.checkStatus, getBit. rewrite H7. reflexivity.
  - intros H7 H3 ini Hi.
    unfold MAX30102.checkStatus, getBit, MAX30102.initialize.
    rewrite H7, H3, Hi. reflexivity.
  - unfold MAX30102.checkStatus, getBit, MAX30102.initialize.
    destruct (Z.testbit status 7); cbn [Z.eqb Pos.eqb].
    + split; [intros H; discriminate H | intros [H _]; discriminate H].
    + destruct (Z.testbit status 3); cbn [Z.eqb].
      * split; [intros _; split; reflexivity | reflexivity].
      * split; [|intros [_ H]; discriminate H].
        destruct (MAX30102._INIT_CMD_LIST self); intros H; discriminate H.
Qed.

Lemma checkStatus_cases_witness :
  MAX30102.checkStatus (steady [] 0) assigned 0x80 idle
  = mkRun (Ret false) idle [Log WARNING "MAX30102 is busy"]
  /\ MAX30102.checkStatus (steady [] 0) assigned 0x00 idle
     = mkRun (Ret false) (mkBus 0 1)
         [ Log WARNING "MAX30102 calibration is not enabled";
           Write [0xE1; 0x08; 0x00]; Sleep; Log INFO "MAX30102 initialized." ].
Proof.
  split.
  - apply (checkStatus_cases (steady [] 0) assigned 0x80 idle). reflexivity.
  - apply (checkStatus_cases (steady [] 0) assigned 0x00 idle);
      reflexivity.
Defined.

(** ** Readings of the humidity and temperature sensor *)

(** The run of [getHumidityTemperature] up to the status check, on a
    successful read that returned at least the status byte. *)
Lemma getHumidityTemperature_to_status
    (wire : nat -> Reply) (self : MAX30102.Self) (trig : list Z) (s : Bus)
    (status : Z) (rest : list Z) :
  MAX30102._TRIG_MEAS_LIST self = Some trig ->
  wire (S (txn s)) = mkReply (status :: rest) 0 ->
  MAX30102.getHumidityTemperature wire self s
  = prepend [Write trig; Sleep; Read 7]
      (bind (MAX30102.checkStatus wire self status)
         (fun ok : bool =>
            if ok then
              bind (item (status :: rest) 1) (fun d1 =>
              bind (item (status :: rest) 2) (fun d2 =>
              bind (item (status :: rest) 3) (fun d3 =>
              bind (item (status :: rest) 3) (fun d3' =>
              bind (item (status :: rest) 4) (fun d4 =>
              bind (item (status :: rest) 5) (fun d5 =>
              if MAX30102.fake
                   (MAX30102.humidity_of (MAX30102.humidity_data d1 d2 d3))
                   (MAX30102.temperature_of
                      (MAX30102.temperature_data d3' d4 d5))
              then
                bind (logging_warning
                        "MAX30102 humidity/temperature value is fake.")
                  (fun _ => bind (MAX30102.softReset)
                              (fun _ => ret ((-1)%Q, (-1)%Q)))
              else
                ret (MAX30102.humidity_of (MAX30102.humidity_data d1 d2 d3),
                     MAX30102.temperature_of
                       (MAX30102.temperature_data d3' d4 d5))))))))
            else ret ((-1)%Q, (-1)%Q))
         (mkBus 0 (S (S (txn s))))).
Proof.
  intros Ht Hw.
  unfold MAX30102.getHumidityTemperature, MAX30102.getHumidityTemperature_body.
  rewrite Ht.
  erewrite bind_run by reflexivity. cbv beta.
  erewrite bind_run by apply i2c_write_run. cbv beta.
  erewrite bind_run by reflexivity. cbv beta.
  erewrite bind_run by apply i2c_read_run. cbv beta.
  cbn [txn]. rewrite Hw. cbn [reply_data reply_code].
  erewrite bind_run by reflexivity. cbv beta. cbn [status_code].
  change (0 =? 0) with true. cbv iota.
  erewrite bind_run by reflexivity. cbv beta.
  rewrite !prepend_nil, !prepend_prepend. reflexivity.
Qed.

(** X9.  A status that is not ready ends the reading with (-1, -1): when
    busy, after the warning and with no further transaction; when not
    calibrated, after the warning and the write of [initialize].  On an
    instance without the init sequence the second case raises
    AttributeError instead. *)
Theorem getHumidityTemperature_not_ready
    (wire : nat -> Reply) (self : MAX30102.Self) (trig : list Z) (s : Bus)
    (status : Z) (rest : list Z) :
  MAX30102._TRIG_MEAS_LIST self = Some trig ->
  wire (S (txn s)) = mkReply (status :: rest) 0 ->
  (Z.testbit status 7 = true ->
   MAX30102.getHumidityTemperature wire self s
   = mkRun (Ret ((-1)%Q, (-1)%Q)) (mkBus 0 (S (S (txn s))))
       [Write trig; Sleep; Read 7; Log WARNING "MAX30102 is busy"])
  /\ (Z.testbit status 7 = false -> Z.testbit status 3 = false ->
      forall ini : list Z,
        MAX30102._INIT_CMD_LIST self = Some ini ->
        MAX30102.getHumidityTemperature wire self s
        = mkRun (Ret ((-1)%Q, (-1)%Q))
            (mkBus (reply_code (wire (S (S (txn s))))) (S (S (S (txn s)))))
            [ Write trig; Sleep; Read 7;
              Log WARNING "MAX30102 calibration is not enabled";
              Write ini; Sleep; Log INFO "MAX30102 initialized." ])
  /\ (Z.testbit status 7 = false -> Z.testbit status 3 = false ->
      MAX30102._INIT_CMD_LIST self = None ->
      MAX30102.getHumidityTemperature wire self s
      = mkRun (Raise (AttributeError "_INIT_CMD_LIST"))
          (mkBus 0 (S (S (txn s))))
          [ Write trig; Sleep; Read 7;
            Log WARNING "MAX30102 calibration is not enabled" ]).
Proof.
  intros Ht Hw.
  rewrite (getHumidityTemperature_to_status wire self trig s status rest Ht Hw).
  split; [|split].
  - intros H7.
    erewrite bind_run
      by (unfold MAX30102.checkStatus, getBit; rewrite H7; reflexivity).
    reflexivity.
  - intros H7 H3 ini Hi.
    erewrite bind_run
      by (unfold MAX30102.checkStatus, getBit, MAX30102.initialize;
          rewrite H7, H3, Hi; reflexivity).
    reflexivity.
  - intros H7 H3 Hi.
    erewrite bind_raise
      by (unfold MAX30102.checkStatus, getBit, MAX30102.initialize;
          rewrite H7, H3, Hi; reflexivity).
    reflexivity.
Qed.

Lemma getHumidityTemperature_not_ready_witness :
  MAX30102.getHumidityTemperature
    (steady [0x88; 0x80; 0; 0x15; 0; 0; 0] 0) assigned idle
  = mkRun (Ret ((-1)%Q, (-1)%Q)) (mkBus 0 2)
      [ Write [0xAC; 0x33; 0x00]; Sleep; Read 7;
        Log WARNING "MAX30102 is busy" ]
  /\ MAX30102.getHumidityTemperature
       (steady [0x00; 0x80; 0; 0x15; 0; 0; 0] 0) assigned idle
     = mkRun (Ret ((-1)%Q, (-1)%Q)) (mkBus 0 3)
         [ Write [0xAC; 0x33; 0x00]; Sleep; Read 7;
           Log WARNING "MAX30102 calibration is not enabled";
           Write [0xE1; 0x08; 0x00]; Sleep; Log INFO "MAX30102 initialized." ].
Proof.
  split.
  - apply (getHumidityTemperature_not_ready
             (steady [0x88; 0x80; 0; 0x15; 0; 0; 0] 0) assigned
             [0xAC; 0x33; 0x00] idle 0x88 [0x80; 0; 0x15; 0; 0; 0]);
      reflexivity.
  - apply (getHumidityTemperature_not_ready
             (steady [0x00; 0x80; 0; 0x15; 0; 0; 0] 0) assigned
             [0xAC; 0x33; 0x00] idle 0x00 [0x80; 0; 0x15; 0; 0; 0]);
      reflexivity.
Defined.

Ltac run_max :=
  repeat (first
            [ erewrite bind_run
                by first [ apply i2c_write_run
                         | apply i2c_read_run
                         | apply checkStatus_valid; assumption
                         | reflexivity ]
            | erewrite bind_raise by reflexivity ];
          cbv beta).

(** X10.  The seven bytes asked for are not checked for: after a successful
    read an empty reply raises IndexError at the status byte, and with a
    valid status the call raises IndexError exactly when fewer than six
    bytes came back; the seventh byte is never looked at. *)
Theorem getHumidityTemperature_reply_length
    (wire : nat -> Reply) (self : MAX30102.Self) (trig : list Z) (s : Bus)
    (payload : list Z) :
  MAX30102._TRIG_MEAS_LIST self = Some trig ->
  wire (S (txn s)) = mkReply payload 0 ->
  (payload = [] ->
   MAX30102.getHumidityTemperature wire self s
   = mkRun (Raise IndexError) (mkBus 0 (S (S (txn s))))
       [Write trig; Sleep; Read 7])
  /\ (forall status : Z,
         nth_error payload 0 = Some status ->
         Z.testbit status 7 = false -> Z.testbit status 3 = true ->
         (outcome (MAX30102.getHumidityTemperature wire self s)
          = Raise IndexError
          <-> (List.length payload < 6)%nat)).
Proof.
  intros Ht Hw. split.
  - intros ->.
    unfold MAX30102.getHumidityTemperature,
      MAX30102.getHumidityTemperature_body.
    rewrite Ht.
    erewrite bind_run by reflexivity. cbv beta.
    erewrite bind_run by apply i2c_write_run. cbv beta.
    erewrite bind_run by reflexivity. cbv beta.
    erewrite bind_run by apply i2c_read_run. cbv beta.
    cbn [txn]. rewrite Hw. cbn [reply_data reply_code].
    erewrite bind_run by reflexivity. cbv beta. cbn [status_code].
    change (0 =? 0) with true. cbv iota.
    erewrite bind_raise by reflexivity. reflexivity.
  - intros status H0 H7 H3.
    destruct payload as [|d0 rest]; [discriminate H0|].
    cbn in H0. injection H0 as ->.
    rewrite (getHumidityTemperature_to_status wire self trig s status rest
               Ht Hw).
    erewrite bind_run by (apply checkStatus_valid; assumption).
    cbv beta iota.
    destruct rest as [|d1 [|d2 [|d3 [|d4 [|d5 rest]]]]].
    + run_max. split; [intros _; apply Nat.ltb_lt; reflexivity | reflexivity].
    + run_max. split; [intros _; apply Nat.ltb_lt; reflexivity | reflexivity].
    + run_max. split; [intros _; apply Nat.ltb_lt; reflexivity | reflexivity].
    + run_max. split; [intros _; apply Nat.ltb_lt; reflexivity | reflexivity].
    + run_max. split; [intros _; apply Nat.ltb_lt; reflexivity | reflexivity].
    + do 6 (erewrite bind_run by reflexivity; cbv beta).
      lazymatch goal with
      | |- context [if ?c then _ else _] => destruct c
      end.
      * run_max. cbn [prepend outcome].
        split; [intros Hx; discriminate Hx | intros Hl; simpl in Hl; lia].
      * cbn [prepend outcome ret].
        split; [intros Hx; discriminate Hx | intros Hl; simpl in Hl; lia].
Qed.

Lemma getHumidityTemperature_reply_length_witness :
  MAX30102.getHumidityTemperature (steady [] 0) assigned idle
  = mkRun (Raise IndexError) (mkBus 0 2)
      [Write [0xAC; 0x33; 0x00]; Sleep; Read 7]
  /\ outcome (MAX30102.getHumidityTemperature
                (steady [0x08; 0x80; 0; 0x15; 0] 0) assigned idle)
     = Raise IndexError.
Proof.
  split.
  - apply (getHumidityTemperature_reply_length
             (steady [] 0) assigned [0xAC; 0x33; 0x00] idle []);
      reflexivity.
  - apply (getHumidityTemperature_reply_length
             (steady [0x08; 0x80; 0; 0x15; 0] 0) assigned [0xAC; 0x33; 0x00]
             idle [0x08; 0x80; 0; 0x15; 0] eq_refl eq_refl)
      with (status := 0x08); try reflexivity.
    cbn. lia.
Defined.

(** Six bytes are enough for a reading. *)
Example getHumidityTemperature_six_bytes :
  outcome (MAX30102.getHumidityTemperature
             (steady [0x08; 0x80; 0x00; 0x05; 0x00; 0x00] 0) assigned idle)
  = Ret (MAX30102.humidity_of 524288, MAX30102.temperature_of 327680).
Proof. reflexivity. Qed.

(** X11.  A pair returned by [getHumidityTemperature] is (-1, -1) or lies in
    the plausible ranges, humidity in [0, 100] and temperature in
    [-40, 120]. *)
Theorem getHumidityTemperature_range
    (wire : nat -> Reply) (self : MAX30102.Self) (s : Bus) (h t : Q) :
  outcome (MAX30102.getHumidityTemperature wire self s) = Ret (h, t) ->
  (h = (-1)%Q /\ t = (-1)%Q)
  \/ (0 <= h /\ h <= 100 /\ -40 <= t /\ t <= 120)%Q.
Proof.
  intros H.
  destruct (getHumidityTemperature_pairing wire self s h t H)
    as [[Hh Ht] | (d1 & d2 & d3 & d4 & d5 & _ & _ & Hf)].
  - left. split; assumption.
  - right. apply fake_false in Hf. tauto.
Qed.

Lemma getHumidityTemperature_range_witness :
  (MAX30102.humidity_of 524288 = (-1)%Q
   /\ MAX30102.temperature_of 327680 = (-1)%Q)
  \/ (0 <= MAX30102.humidity_of 524288
      /\ MAX30102.humidity_of 524288 <= 100
      /\ -40 <= MAX30102.temperature_of 327680
      /\ MAX30102.temperature_of 327680 <= 120)%Q.
Proof.
  apply (getHumidityTemperature_range
           (steady [0x08; 0x80; 0x00; 0x05; 0x00; 0x00; 0x00] 0) assigned idle).
  reflexivity.
Defined.

(** ** The packed fields and the plausibility window *)

Lemma byte_land_0f (d : Z) : byte d -> Z.land d 0x0f = d mod 16.
Proof.
  intros _. change 0x0f with (Z.ones 4). rewrite Z.land_ones by lia.
  reflexivity.
Qed.

Lemma shiftl_mul (d k : Z) : 0 <= k -> Z.shiftl d k = d * 2 ^ k.
Proof. intros Hk. apply Z.shiftl_mul_pow2. exact Hk. Qed.

(** X12.  The temperature field of three bytes is below 2^20 and can be
    taken apart again: its top four bits are the low nibble of byte 3, the
    next eight bits byte 4 and the last eight bits byte 5. *)
Theorem temperature_data_unpack (d3 d4 d5 : Z) :
  byte d3 -> byte d4 -> byte d5 ->
  0 <= MAX30102.temperature_data d3 d4 d5 < 2 ^ 20
  /\ MAX30102.temperature_data d3 d4 d5 / 2 ^ 16 = d3 mod 16
  /\ (MAX30102.temperature_data d3 d4 d5 / 2 ^ 8) mod 2 ^ 8 = d4
  /\ MAX30102.temperature_data d3 d4 d5 mod 2 ^ 8 = d5.
Proof.
  unfold byte. intros B3 B4 B5. unfold MAX30102.temperature_data.
  rewrite byte_land_0f by exact B3.
  rewrite !shiftl_mul by lia.
  change (2 ^ 16) with 65536. change (2 ^ 8) with 256.
  change (2 ^ 20) with 1048576.
  pose proof (Z.mod_pos_bound d3 16 ltac:(lia)) as N.
  set (n := d3 mod 16) in *.
  repeat split; try lia.
  - symmetry. apply (Z.div_unique _ 65536 n (d4 * 256 + d5)); lia.
  - assert (E : (n * 65536 + d4 * 256 + d5) / 256 = n * 256 + d4)
      by (symmetry; apply (Z.div_unique _ 256 _ d5); lia).
    rewrite E. symmetry. apply (Z.mod_unique _ 256 n d4); lia.
  - symmetry. apply (Z.mod_unique _ 256 (n * 256 + d4) d5); lia.
Qed.

Lemma temperature_data_unpack_witness :
  MAX30102.temperature_data 0x15 0xAB 0xCD / 2 ^ 16 = 0x15 mod 16.
Proof.
  apply (temperature_data_unpack 0x15 0xAB 0xCD); unfold byte; lia.
Defined.

(** X13.  The humidity field is not a packing: the high nibble of byte 3 is
    added sixteen times too high.  For bytes the field exceeds the 20-bit
    value with the nibble in bits 3-0 by fifteen times the nibble, equals it
    only when the nibble is zero, and a nibble of 1 gives the same field as
    one more in byte 2. *)
Theorem humidity_data_overlap (d1 d2 d3 : Z) :
  byte d3 ->
  MAX30102.humidity_data d1 d2 d3
  = humidity_raw_spec d1 d2 d3 + 15 * (d3 / 16)
  /\ (MAX30102.humidity_data d1 d2 d3 = humidity_raw_spec d1 d2 d3
      <-> d3 < 16)
  /\ MAX30102.humidity_data d1 d2 0x10 = MAX30102.humidity_data d1 (d2 + 1) 0x00.
Proof.
  intros B. pose proof B as [B0 B1].
  assert (E : MAX30102.humidity_data d1 d2 d3
              = humidity_raw_spec d1 d2 d3 + 15 * (d3 / 16)).
  { unfold MAX30102.humidity_data, humidity_raw_spec.
    rewrite byte_land_f0 by exact B.
    rewrite (Z.shiftr_div_pow2 d3 4) by lia. change (2 ^ 4) with 16. lia. }
  split; [exact E|]. split.
  - rewrite E.
    pose proof (Z.div_pos d3 16 B0 ltac:(lia)) as P.
    split.
    + intros H. assert (Q0 : d3 / 16 = 0) by lia.
      apply Z.div_small_iff in Q0; lia.
    + intros H. rewrite (Z.div_small d3 16) by lia. lia.
  - unfold MAX30102.humidity_data. rewrite !shiftl_mul by lia.
    change (Z.land 0x10 0xf0) with 16. change (Z.land 0x00 0xf0) with 0.
    change (2 ^ 4) with 16. lia.
Qed.

Lemma humidity_data_overlap_witness :
  MAX30102.humidity_data 0x80 0x00 0x15
  = humidity_raw_spec 0x80 0x00 0x15 + 15 * (0x15 / 16).
Proof.
  apply (humidity_data_overlap 0x80 0x00 0x15). unfold byte. lia.
Defined.

(** X14.  From bytes the humidity field is in [0, 1048800] and the converted
    humidity is never negative, so the [humidity < 0] test cannot fire; the
    field can exceed 2^20, so the [100 < humidity] test can.  The converted
    temperature is at least -51 and below 149. *)
Theorem converted_values_from_bytes (d1 d2 d3 d4 d5 : Z) :
  byte d1 -> byte d2 -> byte d3 -> byte d4 -> byte d5 ->
  0 <= MAX30102.humidity_data d1 d2 d3 <= 1048800
  /\ Qltb (MAX30102.humidity_of (MAX30102.humidity_data d1 d2 d3)) 0 = false
  /\ (-51 <= MAX30102.temperature_of (MAX30102.temperature_data d3 d4 d5)
      /\ MAX30102.temperature_of (MAX30102.temperature_data d3 d4 d5) < 149)%Q
  /\ Qltb 100 (MAX30102.humidity_of (MAX30102.humidity_data 0xFF 0xFF 0xF0))
     = true.
Proof.
  intros B1 B2 B3 B4 B5.
  assert (Hh : 0 <= MAX30102.humidity_data d1 d2 d3 <= 1048800).
  { unfold MAX30102.humidity_data. rewrite byte_land_f0 by exact B3.
    rewrite !shiftl_mul by lia. unfold byte in *.
    change (2 ^ 12) with 4096. change (2 ^ 4) with 16.
    pose proof (Z.div_pos d3 16 ltac:(lia) ltac:(lia)).
    assert (d3 / 16 <= 15) by (apply Z.lt_succ_r, Z.div_lt_upper_bound; lia).
    lia. }
  assert (Ht : 0 <= MAX30102.temperature_data d3 d4 d5 < 1048576).
  { unfold MAX30102.temperature_data. rewrite byte_land_0f by exact B3.
    rewrite !shiftl_mul by lia. unfold byte in *.
    change (2 ^ 16) with 65536. change (2 ^ 8) with 256.
    pose proof (Z.mod_pos_bound d3 16 ltac:(lia)). lia. }
  split; [exact Hh|]. split; [|split; [|reflexivity]].
  - destruct (Qltb _ 0) eqn:E; [|reflexivity].
    apply Qltb_lt in E. exfalso. revert E. apply Qle_not_lt.
    unfold MAX30102.humidity_of, Qle. cbn. lia.
  - split.
    + unfold MAX30102.temperature_of, Qle. cbn. lia.
    + unfold MAX30102.temperature_of, Qlt. cbn. lia.
Qed.

Lemma converted_values_from_bytes_witness :
  0 <= MAX30102.humidity_data 0x80 0x00 0x15 <= 1048800.
Proof.
  apply (converted_values_from_bytes 0x80 0x00 0x15 0x00 0x00);
    unfold byte; lia.
Defined.

(** X15.  In terms of the raw fields a reading passes the plausibility test
    exactly when the humidity field is in [0, 2^20] and the temperature
    field in [57672, 896532]. *)
Theorem fake_window (hd td : Z) :
  MAX30102.fake (MAX30102.humidity_of hd) (MAX30102.temperature_of td) = false
  <-> 0 <= hd <= 1048576 /\ 57672 <= td <= 896532.
Proof.
  assert (A : (MAX30102.temperature_of td < -40)%Q <-> td < 57672)
    by (unfold MAX30102.temperature_of, Qlt; cbn; lia).
  assert (B : (120 < MAX30102.temperature_of td)%Q <-> 896532 < td)
    by (unfold MAX30102.temperature_of, Qlt; cbn; lia).
  assert (C : (MAX30102.humidity_of hd < 0)%Q <-> hd < 0)
    by (unfold MAX30102.humidity_of, Qlt; cbn; lia).
  assert (D : (100 < MAX30102.humidity_of hd)%Q <-> 1048576 < hd)
    by (unfold MAX30102.humidity_of, Qlt; cbn; lia).
  split.
  - intros H.
    assert (N : ~ (MAX30102.temperature_of td < -40
                   \/ 120 < MAX30102.temperature_of td
                   \/ MAX30102.humidity_of hd < 0
                   \/ 100 < MAX30102.humidity_of hd)%Q)
      by (rewrite <- fake_true, H; discriminate).
    rewrite A, B, C, D in N. lia.
  - intros H. destruct (MAX30102.fake _ _) eqn:E; [|reflexivity].
    apply fake_true in E. rewrite A, B, C, D in E. lia.
Qed.

(** ** The payload of the environment data *)

(** X17.  Values on the Q9 grid are written without loss, inside the range
    of two bytes: for humidity k/512 and temperature j/512 - 25 with
    0 < k, j < 65536, what is written after the address is k and j, each as
    its high and its low byte. *)
Theorem writeEnvironmentData_exact_on_grid
    (wire : nat -> Reply) (k j : Z) (s : Bus) :
  0 < k < 65536 -> 0 < j < 65536 ->
  emitted (CCS811.writeEnvironmentData wire
             (inject_Z k / 512) (inject_Z j / 512 - 25) s)
  = [Write [0x05; k / 256; k mod 256; j / 256; j mod 256]].
Proof.
  intros Hk Hj.
  assert (Dg : forall n : Z, (inject_Z n / 512 == inject_Z n * (1 # 512))%Q)
    by (intros n; field).
  assert (Pk : (0 < inject_Z k /\ inject_Z k < 65536)%Q).
  { change 0%Q with (inject_Z 0). change 65536%Q with (inject_Z 65536).
    rewrite <- !Zlt_Qlt. lia. }
  assert (Pj : (0 < inject_Z j /\ inject_Z j < 65536)%Q).
  { change 0%Q with (inject_Z 0). change 65536%Q with (inject_Z 65536).
    rewrite <- !Zlt_Qlt. lia. }
  unfold CCS811.writeEnvironmentData.
  rewrite (proj2 (Qltb_lt 0 (inject_Z k / 512))) by (rewrite Dg; lra).
  rewrite (proj2 (Qltb_lt (-25) (inject_Z j / 512 - 25)))
    by (rewrite Dg; lra).
  cbn [andb]. rewrite i2c_write_run. cbn [emitted].
  unfold CCS811.write_data.
  assert (Es : (py_add (inject_Z j / 512 - 25) 25 == inject_Z j / 512)%Q).
  { unfold py_add.
    rewrite (round_double_comp_nonneg _ (inject_Z j / 512)).
    - apply round_double_exact, double_grid. lia.
    - rewrite Dg. lra.
    - ring. }
  destruct (q9_encode (inject_Z k / 512)) as (Sh & Bhh & Bhl).
  { apply double_grid. lia. }
  { rewrite Dg. lra. }
  { rewrite Dg. lra. }
  destruct (q9_encode (py_add (inject_Z j / 512 - 25) 25)) as (St & Bth & Btl).
  { apply (double_comp (inject_Z j / 512)); [symmetry; exact Es|].
    apply double_grid. lia. }
  { rewrite Es, Dg. lra. }
  { rewrite Es, Dg. lra. }
  cbv zeta in Sh, Bhh, Bhl, St, Bth, Btl. unfold byte in *.
  assert (Fk : Qfloor (inject_Z k / 512 * 512) = k).
  { rewrite <- (Qfloor_Z k) at 2. apply Qfloor_comp. field. }
  assert (Fj : Qfloor (py_add (inject_Z j / 512 - 25) 25 * 512) = j).
  { rewrite <- (Qfloor_Z j) at 2. apply Qfloor_comp. rewrite Es. field. }
  rewrite Fk in Sh. rewrite Fj in St.
  set (hh := py_int (py_div (py_mul (inject_Z k / 512) (2 ^ 9)) (2 ^ 8))) in *.
  set (hl := py_int (py_mod (py_mul (inject_Z k / 512) (2 ^ 9)) (2 ^ 8))) in *.
  set (th := py_int (py_div (py_mul (py_add (inject_Z j / 512 - 25) 25)
                               (2 ^ 9)) (2 ^ 8))) in *.
  set (tl := py_int (py_mod (py_mul (py_add (inject_Z j / 512 - 25) 25)
                               (2 ^ 9)) (2 ^ 8))) in *.
  assert (Qh : k / 256 = hh /\ k mod 256 = hl).
  { split; [symmetry; apply (Z.div_unique k 256 hh hl); lia
           | symmetry; apply (Z.mod_unique k 256 hh hl); lia]. }
  assert (Qt : j / 256 = th /\ j mod 256 = tl).
  { split; [symmetry; apply (Z.div_unique j 256 th tl); lia
           | symmetry; apply (Z.mod_unique j 256 th tl); lia]. }
  destruct Qh as [-> ->]. destruct Qt as [-> ->]. reflexivity.
Qed.

Lemma writeEnvironmentData_exact_on_grid_witness :
  emitted (CCS811.writeEnvironmentData (steady [] 0)
             (inject_Z 25754 / 512) (inject_Z 23040 / 512 - 25) idle)
  = [Write [0x05; 25754 / 256; 25754 mod 256; 23040 / 256; 23040 mod 256]].
Proof.
  apply (writeEnvironmentData_exact_on_grid (steady [] 0) 25754 23040 idle);
    lia.
Defined.
